(** * bttf-weather-logistics-etl-pipeline: the ETL core, embedded and verified

    Two scripts are embedded:
    - [scripts/ingestion/weather_fetch.py]: the bounded-retry weather fetch
      ([fetch_weather_for_city]) and the catalog reader
      ([fetch_cities_from_db]);
    - [scripts/processing/build_fact_shipments_weather.py]: the join
      ([preprocess_and_join]).

    Conventions of the embedding.
    - A Python [str] is a [string]; the classification of characters
      ([str.strip], [str.lower]) is the one Python gives to ASCII text.
    - A Python [float] (and a pandas float64 cell) is a primitive binary64
      [float]; the null of a float column is NaN, as in pandas.
    - A pandas datetime64[ns] cell is a [Z]: nanoseconds since the epoch.
      [pd.to_datetime] is taken on columns that already hold datetimes,
      where it changes nothing.
    - A DataFrame of a known schema is the list of its rows, each a record.
      The frames handed to [preprocess_and_join] are shared with its caller
      and assigned to in place, so the function returns the frames as it
      left them next to its result.
    - Logging is a list of structured records, oldest first. *)

From Stdlib Require Import ZArith List String Ascii Bool Floats Lia.
Import ListNotations.

Local Open Scope Z_scope.

(* Decimal literals such as 52.52 stand for the nearest binary64 value, as in Python. *)
Set Warnings "-inexact-float,-register-all".

(* ------------------------------------------------------------------ *)
(** * Python and pandas primitives used by the scripts *)

Module Py.

(** [str.isspace] on one ASCII character: TAB..CR, FS..US and SPACE. *)
Definition isspace (c : ascii) : bool :=
  let n := nat_of_ascii c in
  ((9 <=? n)%nat && (n <=? 13)%nat) || ((28 <=? n)%nat && (n <=? 32)%nat).

(** [str.lstrip()], [str.rstrip()], [str.strip()] with no argument. *)
Fixpoint lstrip (s : string) : string :=
  match s with
  | EmptyString => EmptyString
  | String c s' => if isspace c then lstrip s' else s
  end.

Fixpoint rstrip (s : string) : string :=
  match s with
  | EmptyString => EmptyString
  | String c s' =>
      match rstrip s' with
      | EmptyString => if isspace c then EmptyString else String c EmptyString
      | r => String c r
      end
  end.

Definition strip (s : string) : string := rstrip (lstrip s).

(** [str.lower()]: 'A'..'Z' move to 'a'..'z', everything else stays. *)
Definition lower_char (c : ascii) : ascii :=
  let n := nat_of_ascii c in
  if ((65 <=? n)%nat && (n <=? 90)%nat) then ascii_of_nat (n + 32) else c.

Fixpoint lower (s : string) : string :=
  match s with
  | EmptyString => EmptyString
  | String c s' => String (lower_char c) (lower s')
  end.

(** A datetime64[ns] value. *)
Definition datetime := Z.

Definition NS_PER_SECOND : Z := 1000000000.
Definition NS_PER_HOUR : Z := 3600 * NS_PER_SECOND.

(** Days from 1970-01-01 to the civil date [y]-[m]-[d] (proleptic
    Gregorian calendar); only used to write datetime literals. *)
Definition days_from_civil (y m d : Z) : Z :=
  let y' := if m <=? 2 then y - 1 else y in
  let era := y' / 400 in
  let yoe := y' - era * 400 in
  let mp := (m + 9) mod 12 in
  let doy := (153 * mp + 2) / 5 + d - 1 in
  let doe := yoe * 365 + yoe / 4 - yoe / 100 + doy in
  era * 146097 + doe - 719468.

(** [pd.Timestamp(year, month, day, hour, minute, second)]. *)
Definition Timestamp (y m d hh mm ss : Z) : datetime :=
  (((days_from_civil y m d * 24 + hh) * 60 + mm) * 60 + ss) * NS_PER_SECOND.

(** [pd.to_datetime] on a cell that already is a datetime. *)
Definition to_datetime (t : datetime) : datetime := t.

(** [Series.dt.floor("h")] on one cell: round down to a multiple of an hour. *)
Definition floor_h (t : datetime) : datetime := t - t mod NS_PER_HOUR.

(** The levels of [logging] the scripts use. *)
Inductive LogLevel := INFO | WARNING | ERROR.

(** [DataFrame.empty] for a frame that has its columns: no row. *)
Definition empty {A : Type} (df : list A) : bool :=
  match df with
  | [] => true
  | _ :: _ => false
  end.

(** ** Key equality of [pd.merge]

    pandas factorizes the key columns; two cells get the same label when
    they are equal, and nulls are given one label of their own, so a null
    key matches a null key. *)

Definition isnan (x : float) : bool := negb (PrimFloat.eqb x x).

Definition float_key_eqb (x y : float) : bool :=
  PrimFloat.eqb x y || (isnan x && isnan y).

Definition opt_key_eqb {A : Type} (eqb : A -> A -> bool) (x y : option A) : bool :=
  match x, y with
  | Some a, Some b => eqb a b
  | None, None => true
  | _, _ => false
  end.

(** [pd.merge(left, right, how="inner")]: the rows of [left] in order, each
    paired with its matching rows of [right] in order (the order pandas
    documents: that of the left keys). *)
Definition merge_inner {A B : Type} (on : A -> B -> bool)
    (left : list A) (right : list B) : list (A * B) :=
  flat_map (fun l => map (fun r => (l, r)) (filter (on l) right)) left.

(** [pd.merge(left, right, how="left")]: as [merge_inner], but a row of
    [left] without a match is kept once, with nulls for the columns of
    [right]. *)
Definition merge_left {A B : Type} (on : A -> B -> bool)
    (left : list A) (right : list B) : list (A * option B) :=
  flat_map (fun l =>
              match filter (on l) right with
              | [] => [(l, None)]
              | matches => map (fun r => (l, Some r)) matches
              end) left.

End Py.

(* ------------------------------------------------------------------ *)
(** * scripts/ingestion/weather_fetch.py *)

Module WeatherFetch.

Import Py.

(** ** Python values and exceptions *)

(** What [response.json()] returns.  A dict is the list of its items. *)
Inductive json :=
| JNull
| JBool (b : bool)
| JInt (z : Z)
| JFloat (f : float)
| JStr (s : string)
| JList (items : list json)
| JDict (items : list (string * json)).

(** The exceptions an attempt can raise; all are subclasses of [Exception]. *)
Inductive exn :=
| RequestException              (* [requests.get] raised: no connection, timeout *)
| HTTPError (status_code : Z)   (* [raise_for_status] *)
| JSONDecodeError               (* [response.json()] *)
| AttributeError
| ValueError (msg : string)
| IndexError
| TypeError
| KeyError.

(** A computation that returns or raises. *)
Inductive py (A : Type) :=
| Return (a : A)
| Raise (e : exn).

Arguments Return {A} a.
Arguments Raise {A} e.

Definition bind {A B : Type} (m : py A) (k : A -> py B) : py B :=
  match m with
  | Return a => k a
  | Raise e => Raise e
  end.

Notation "x <- m ;; k" := (bind m (fun x => k))
  (at level 61, m at next level, right associativity).

(** A comprehension [[f(x) for x in xs]]: left to right, and the first
    exception ends it. *)
Fixpoint comprehension {A B : Type} (f : A -> py B) (xs : list A) : py (list B) :=
  match xs with
  | [] => Return []
  | x :: xs' =>
      y <- f x ;;
      ys <- comprehension f xs' ;;
      Return (y :: ys)
  end.

Fixpoint lookup (key : string) (items : list (string * json)) : option json :=
  match items with
  | [] => None
  | (k, v) :: items' => if String.eqb k key then Some v else lookup key items'
  end.

(** [d.get(key, default)]; only a dict has the method. *)
Definition get (d : json) (key : string) (default : json) : py json :=
  match d with
  | JDict items =>
      Return (match lookup key items with Some v => v | None => default end)
  | _ => Raise AttributeError
  end.

(** [bool(v)], as [not v] uses it. *)
Definition truthy (v : json) : bool :=
  match v with
  | JNull => false
  | JBool b => b
  | JInt z => negb (z =? 0)
  | JFloat f => negb (PrimFloat.eqb f 0%float)
  | JStr s => negb (String.eqb s EmptyString)
  | JList items => negb (empty items)
  | JDict items => negb (empty items)
  end.

(** The items [enumerate(v)] goes through. *)
Definition iterate (v : json) : py (list json) :=
  match v with
  | JList items => Return items
  | JStr s => Return (map (fun c => JStr (String c EmptyString)) (list_ascii_of_string s))
  | JDict items => Return (map (fun kv => JStr (fst kv)) items)
  | _ => Raise TypeError
  end.

Definition enumerate {A : Type} (xs : list A) : list (nat * A) :=
  combine (seq 0 (List.length xs)) xs.

(** [v[i]] for an index [i >= 0].  The keys of a decoded dict are strings,
    so an integer is never one of them. *)
Definition getitem (v : json) (i : nat) : py json :=
  match v with
  | JList items =>
      match nth_error items i with
      | Some x => Return x
      | None => Raise IndexError
      end
  | JStr s =>
      match String.get i s with
      | Some c => Return (JStr (String c EmptyString))
      | None => Raise IndexError
      end
  | JDict _ => Raise KeyError
  | _ => Raise TypeError
  end.

(** ** Configuration *)

Definition WEATHER_PARAMS : list string :=
  ["temperature_2m"; "windspeed_10m"; "precipitation"; "weathercode"]%string.
Definition START_DATE : string := "2022-07-01".
Definition END_DATE : string := "2022-07-31".

(** ** Data *)

(** A [city_info] dict.  The coordinates are the cells of the catalog as
    the driver returns them; [None] is Python's [None]. *)
Record Location := {
  city : string;
  latitude : option float;
  longitude : option float
}.

(** One dict of the list [fetch_weather_for_city] returns; [o_values] are
    the entries of the inner dict comprehension, in the order of
    [WEATHER_PARAMS]. *)
Record Observation := {
  o_city : string;
  o_latitude : option float;
  o_longitude : option float;
  o_timestamp : json;
  o_values : list (string * json)
}.

(** The query parameters of the GET request. *)
Record Request := {
  q_latitude : option float;
  q_longitude : option float;
  q_hourly : string;
  q_start_date : string;
  q_end_date : string;
  q_timezone : string
}.

(** What one GET request comes to. *)
Inductive HttpOutcome :=
| NoResponse                                         (* [requests.get] raised *)
| Response (status_code : Z) (body : option json).   (* [None]: the body is not JSON *)

(** The archive endpoint: the outcome of the [n]-th request made to it
    (counting from 0), given the request. *)
Definition Endpoint : Type := Request -> nat -> HttpOutcome.

Inductive LogMessage :=
| AttemptFailed (attempt : nat) (name : string) (e : exn)
    (* "[Attempt {attempt+1}] Failed for {city}: {e}" *)
| FinalFailure (name : string)        (* "Final failure for {city}" *)
| FetchedCities (n : nat)             (* "Fetched {n} cities from database." *)
| DatabaseFailure.                    (* "Database connection or query failed: {e}" *)

Definition LogRecord : Type := LogLevel * LogMessage.

(** The world outside the function: requests made so far, seconds slept so
    far, and the log, oldest record first. *)
Record World := {
  invocations : nat;
  slept : Z;
  log : list LogRecord
}.

Definition logging (r : LogRecord) (w : World) : World :=
  {| invocations := invocations w; slept := slept w; log := log w ++ [r] |}.

(** [time.sleep(delay)] raises [ValueError] on a negative length. *)
Definition sleep (delay : Z) (w : World) : py World :=
  if delay <? 0
  then Raise (ValueError "sleep length must be non-negative")
  else Return {| invocations := invocations w; slept := slept w + delay; log := log w |}.

(** ** fetch_weather_for_city *)

Definition request_params (city_info : Location) : Request :=
  {| q_latitude := latitude city_info;
     q_longitude := longitude city_info;
     q_hourly := String.concat "," WEATHER_PARAMS;
     q_start_date := START_DATE;
     q_end_date := END_DATE;
     q_timezone := "auto" |}.

(** [response.raise_for_status()] *)
Definition raise_for_status (status_code : Z) : py unit :=
  if (400 <=? status_code) && (status_code <? 600)
  then Raise (HTTPError status_code)
  else Return tt.

(** [{param: hourly_data.get(param, [None])[i] for param in WEATHER_PARAMS}] *)
Definition values_at (hourly_data : json) (i : nat) : py (list (string * json)) :=
  comprehension
    (fun param =>
       series <- get hourly_data param (JList [JNull]) ;;
       v <- getitem series i ;;
       Return (param, v))
    WEATHER_PARAMS.

(** Lines 80-94: from the decoded body to the list of observations. *)
Definition observations (city_info : Location) (data : json) : py (list Observation) :=
  hourly_data <- get data "hourly" (JDict []) ;;
  time_series <- get hourly_data "time" (JList []) ;;
  if negb (truthy time_series)
  then Raise (ValueError "No hourly data received.")
  else
    items <- iterate time_series ;;
    comprehension
      (fun '(i, timestamp) =>
         values <- values_at hourly_data i ;;
         Return {| o_city := city city_info;
                   o_latitude := latitude city_info;
                   o_longitude := longitude city_info;
                   o_timestamp := timestamp;
                   o_values := values |})
      (enumerate items).

(** The body of the [try] (lines 76-94), given what the request came to. *)
Definition attempt (city_info : Location) (outcome : HttpOutcome) : py (list Observation) :=
  match outcome with
  | NoResponse => Raise RequestException
  | Response status_code body =>
      _ <- raise_for_status status_code ;;
      data <- match body with
              | Some data => Return data
              | None => Raise JSONDecodeError
              end ;;
      observations city_info data
  end.

(** The [for attempt in range(retries)] loop with [remaining] iterations to
    go, and the two lines after it. *)
Fixpoint retry_loop (endpoint : Endpoint) (city_info : Location) (delay : Z)
    (remaining : nat) (attempt_no : nat) (w : World) : py (list Observation) * World :=
  match remaining with
  | O => (Return [], logging (ERROR, FinalFailure (city city_info)) w)
  | S remaining' =>
      let outcome := endpoint (request_params city_info) (invocations w) in
      let w := {| invocations := S (invocations w); slept := slept w; log := log w |} in
      match attempt city_info outcome with
      | Return result => (Return result, w)
      | Raise e =>
          let w := logging (WARNING, AttemptFailed (attempt_no + 1) (city city_info) e) w in
          match sleep delay w with
          | Raise e' => (Raise e', w)
          | Return w => retry_loop endpoint city_info delay remaining' (S attempt_no) w
          end
      end
  end.

(** [range(retries)] has [max(retries, 0)] elements. *)
Definition fetch_weather_for_city (endpoint : Endpoint) (city_info : Location)
    (retries delay : Z) (w : World) : py (list Observation) * World :=
  retry_loop endpoint city_info delay (Z.to_nat retries) 0 w.

(** ** fetch_cities_from_db *)

(** A row of the table [shipments.cities]; [None] is SQL's NULL. *)
Record CatalogRow := {
  cr_id : Z;
  cr_name : string;
  cr_latitude : option float;
  cr_longitude : option float
}.

(** The database as the reader finds it: connecting or querying fails, or
    the table is read. *)
Inductive Database :=
| Unavailable
| Available (cities : list CatalogRow).

Definition is_not_null {A : Type} (x : option A) : bool :=
  match x with
  | Some _ => true
  | None => false
  end.

(** [SELECT name, latitude, longitude FROM shipments.cities
     WHERE latitude IS NOT NULL AND longitude IS NOT NULL] *)
Definition query (table : list CatalogRow)
  : list (string * option float * option float) :=
  map (fun r => (cr_name r, cr_latitude r, cr_longitude r))
      (filter (fun r => is_not_null (cr_latitude r) && is_not_null (cr_longitude r))
              table).

Definition fetch_cities_from_db (db : Database) : list Location * list LogRecord :=
  match db with
  | Available table =>
      let results := query table in
      let cities :=
        map (fun row : string * option float * option float =>
               let '(name, lat, lon) := row in
               {| city := name; latitude := lat; longitude := lon |})
            results in
      (cities, [(INFO, FetchedCities (List.length cities))])
  | Unavailable => ([], [(ERROR, DatabaseFailure)])
  end.

End WeatherFetch.

(* ------------------------------------------------------------------ *)
(** * scripts/processing/build_fact_shipments_weather.py *)

Module BuildFact.

Import Py.

(** A row of [shipments_df] (table [shipments.shipments]).  The last two
    columns are the ones [preprocess_and_join] assigns; [None] is a column
    that is not there yet. *)
Record ShipmentRow := {
  sh_id : Z;
  sh_start_location : string;
  sh_shipment_start_timestamp : datetime;
  sh_consumed_fuel : float;
  sh_hourly_timestamp : option datetime;
  sh_city : option string
}.

(** A row of [cities_df] (table [shipments.cities]). *)
Record CityRow := {
  c_id : Z;
  c_name : string;
  c_latitude : float;
  c_longitude : float
}.

(** A row of [weather_df] (the weather CSV). *)
Record WeatherRow := {
  w_city : string;
  w_latitude : float;
  w_longitude : float;
  w_timestamp : datetime;
  w_temperature_2m : float;
  w_windspeed_10m : float;
  w_precipitation : float;
  w_weathercode : option Z
}.

(** A row of [merged_weather]: the weather columns, the columns [id] and
    [name] of the matched city (null without a match), and
    [hourly_timestamp] once it is assigned. *)
Record MergedWeatherRow := {
  mw_obs : WeatherRow;
  mw_id : option Z;
  mw_name : option string;
  mw_hourly_timestamp : option datetime
}.

(** A row of [result_df]. *)
Record FactRecord := {
  shipment_id : Z;
  city_id : option Z;
  timestamp : datetime;
  fuel_consumed_liters : float;
  temperature_2m : float;
  windspeed_10m : float;
  precipitation : float;
  weathercode : option Z
}.

(** The three frames the caller shares with [preprocess_and_join]. *)
Record Frames := {
  shipments_df : list ShipmentRow;
  cities_df : list CityRow;
  weather_df : list WeatherRow
}.

Inductive LogMessage :=
| EmptyInputs                       (* "One or more input datasets are empty." *)
| NoMatchingRecords                 (* "No matching records found after join." *)
| FinalShape (rows cols : nat).     (* "Final fact table shape: (rows, cols)" *)

Definition LogRecord : Type := LogLevel * LogMessage.

(** What a call leaves behind: the returned table, the frames as the call
    left them, and the records it logged. *)
Record Outcome := {
  returned : list FactRecord;
  frames : Frames;
  logged : list LogRecord
}.

(** [s.str.strip().str.lower()] on one cell. *)
Definition normalize (s : string) : string := lower (strip s).

(** [cities_df["name"] = cities_df["name"].str.strip().str.lower()] *)
Definition normalize_city (c : CityRow) : CityRow :=
  {| c_id := c_id c; c_name := normalize (c_name c);
     c_latitude := c_latitude c; c_longitude := c_longitude c |}.

(** [weather_df["city"] = weather_df["city"].str.strip().str.lower()] *)
Definition normalize_weather (w : WeatherRow) : WeatherRow :=
  {| w_city := normalize (w_city w);
     w_latitude := w_latitude w; w_longitude := w_longitude w;
     w_timestamp := w_timestamp w;
     w_temperature_2m := w_temperature_2m w;
     w_windspeed_10m := w_windspeed_10m w;
     w_precipitation := w_precipitation w;
     w_weathercode := w_weathercode w |}.

(** The key test of the weather-to-city merge:
    [left_on=["city","latitude","longitude"]],
    [right_on=["name","latitude","longitude"]]. *)
Definition weather_city_on (w : WeatherRow) (c : CityRow) : bool :=
  String.eqb (w_city w) (c_name c)
  && float_key_eqb (w_latitude w) (c_latitude c)
  && float_key_eqb (w_longitude w) (c_longitude c).

(** One row of the left merge, in the columns of [merged_weather]. *)
Definition merged_row (p : WeatherRow * option CityRow) : MergedWeatherRow :=
  {| mw_obs := fst p;
     mw_id := option_map c_id (snd p);
     mw_name := option_map c_name (snd p);
     mw_hourly_timestamp := None |}.

(** The three assignments to [shipments_df] (lines 108-110). *)
Definition prepare_shipment (s : ShipmentRow) : ShipmentRow :=
  let ts := to_datetime (sh_shipment_start_timestamp s) in
  {| sh_id := sh_id s;
     sh_start_location := sh_start_location s;
     sh_shipment_start_timestamp := ts;
     sh_consumed_fuel := sh_consumed_fuel s;
     sh_hourly_timestamp := Some (floor_h ts);
     sh_city := Some (normalize (sh_start_location s)) |}.

(** The two assignments to [merged_weather] (lines 112-113). *)
Definition prepare_merged (m : MergedWeatherRow) : MergedWeatherRow :=
  let w := mw_obs m in
  let ts := to_datetime (w_timestamp w) in
  {| mw_obs :=
       {| w_city := w_city w;
          w_latitude := w_latitude w; w_longitude := w_longitude w;
          w_timestamp := ts;
          w_temperature_2m := w_temperature_2m w;
          w_windspeed_10m := w_windspeed_10m w;
          w_precipitation := w_precipitation w;
          w_weathercode := w_weathercode w |};
     mw_id := mw_id m;
     mw_name := mw_name m;
     mw_hourly_timestamp := Some (floor_h ts) |}.

(** The key test of the shipment-to-weather merge:
    [on=["city","hourly_timestamp"]]. *)
Definition shipment_weather_on (s : ShipmentRow) (m : MergedWeatherRow) : bool :=
  opt_key_eqb String.eqb (sh_city s) (Some (w_city (mw_obs m)))
  && opt_key_eqb Z.eqb (sh_hourly_timestamp s) (mw_hourly_timestamp m).

(** The projection and renaming of lines 126-140: [id_x] is the shipment's
    [id], [id_y] the city's. *)
Definition project (p : ShipmentRow * MergedWeatherRow) : FactRecord :=
  let (s, m) := p in
  {| shipment_id := sh_id s;
     city_id := mw_id m;
     timestamp := sh_shipment_start_timestamp s;
     fuel_consumed_liters := sh_consumed_fuel s;
     temperature_2m := w_temperature_2m (mw_obs m);
     windspeed_10m := w_windspeed_10m (mw_obs m);
     precipitation := w_precipitation (mw_obs m);
     weathercode := w_weathercode (mw_obs m) |}.

(** The value of [merged_weather] when the second merge reads it (lines
    97-113), as a function of the frames the caller passed. *)
Definition enriched_weather (cities : list CityRow) (weather : list WeatherRow)
  : list MergedWeatherRow :=
  map prepare_merged
      (map merged_row
           (merge_left weather_city_on
                       (map normalize_weather weather)
                       (map normalize_city cities))).

Definition preprocess_and_join (st : Frames) : Outcome :=
  if empty (shipments_df st) || empty (cities_df st) || empty (weather_df st)
  then
    {| returned := []; frames := st; logged := [(WARNING, EmptyInputs)] |}
  else
    let cities := map normalize_city (cities_df st) in
    let weather := map normalize_weather (weather_df st) in
    let merged_weather := map merged_row (merge_left weather_city_on weather cities) in
    let shipments := map prepare_shipment (shipments_df st) in
    let merged_weather := map prepare_merged merged_weather in
    let fact_df := merge_inner shipment_weather_on shipments merged_weather in
    let st' := {| shipments_df := shipments; cities_df := cities; weather_df := weather |} in
    if empty fact_df
    then
      {| returned := []; frames := st'; logged := [(WARNING, NoMatchingRecords)] |}
    else
      let result_df := map project fact_df in
      {| returned := result_df; frames := st';
         logged := [(INFO, FinalShape (List.length result_df) 8)] |}.

End BuildFact.

(* ------------------------------------------------------------------ *)
(** * The end-to-end scenario *)

Module Scenario.

Import Py BuildFact.
Local Open Scope float_scope.
Local Open Scope string_scope.

Definition shipment : ShipmentRow :=
  {| sh_id := 1; sh_start_location := "Berlin";
     sh_shipment_start_timestamp := Timestamp 2022 7 1 8 15 0;
     sh_consumed_fuel := 12.5;
     sh_hourly_timestamp := None; sh_city := None |}.

Definition berlin : CityRow :=
  {| c_id := 9; c_name := "Berlin"; c_latitude := 52.52; c_longitude := 13.40 |}.

Definition observation : WeatherRow :=
  {| w_city := "berlin"; w_latitude := 52.52; w_longitude := 13.40;
     w_timestamp := Timestamp 2022 7 1 8 0 0;
     w_temperature_2m := 21.3; w_windspeed_10m := 5.1;
     w_precipitation := 0.0; w_weathercode := Some 1%Z |}.

Definition inputs : Frames :=
  {| shipments_df := [shipment]; cities_df := [berlin]; weather_df := [observation] |}.

Definition expected : FactRecord :=
  {| shipment_id := 1; city_id := Some 9%Z;
     timestamp := Timestamp 2022 7 1 8 15 0;
     fuel_consumed_liters := 12.5;
     temperature_2m := 21.3; windspeed_10m := 5.1;
     precipitation := 0.0; weathercode := Some 1%Z |}.

End Scenario.

(* ------------------------------------------------------------------ *)
(** * The join, row by row

    Vocabulary for the statements below, in terms of the frames as the
    caller passed them: which observation a shipment matches, which catalog
    row an observation matches, and the fact record a match produces. *)

Module JoinRows.

Import Py BuildFact.

(** The shipment's key (normalized start location, hour) is the key of the
    observation. *)
Definition shipment_matches (s : ShipmentRow) (w : WeatherRow) : bool :=
  String.eqb (normalize (sh_start_location s)) (normalize (w_city w))
  && Z.eqb (floor_h (sh_shipment_start_timestamp s)) (floor_h (w_timestamp w)).

(** The observation's key (normalized name, latitude, longitude) is the key
    of the catalog row. *)
Definition catalog_matches (w : WeatherRow) (c : CityRow) : bool :=
  String.eqb (normalize (w_city w)) (normalize (c_name c))
  && float_key_eqb (w_latitude w) (c_latitude c)
  && float_key_eqb (w_longitude w) (c_longitude c).

(** The fact record of shipment [s], observation [w] and city id [cid]. *)
Definition fact_of (s : ShipmentRow) (w : WeatherRow) (cid : option Z) : FactRecord :=
  {| shipment_id := sh_id s;
     city_id := cid;
     timestamp := sh_shipment_start_timestamp s;
     fuel_consumed_liters := sh_consumed_fuel s;
     temperature_2m := w_temperature_2m w;
     windspeed_10m := w_windspeed_10m w;
     precipitation := w_precipitation w;
     weathercode := w_weathercode w |}.

(** The city ids the left merge attaches to observation [w]: one per
    matching catalog row, or a single null. *)
Definition city_ids (cities : list CityRow) (w : WeatherRow) : list (option Z) :=
  match filter (catalog_matches w) cities with
  | [] => [None]
  | matches => map (fun c => Some (c_id c)) matches
  end.

(** The fact records of one shipment. *)
Definition rows_of (cities : list CityRow) (weather : list WeatherRow)
    (s : ShipmentRow) : list FactRecord :=
  flat_map (fun w => if shipment_matches s w
                     then map (fact_of s w) (city_ids cities w)
                     else [])
           weather.

(** The frames [st] with another shipments table. *)
Definition with_shipments (st : Frames) (shipments : list ShipmentRow) : Frames :=
  {| shipments_df := shipments; cities_df := cities_df st; weather_df := weather_df st |}.

(** The rows of [merged_weather] that come from observation [w]. *)
Definition enriched_rows (cities : list CityRow) (w : WeatherRow) : list MergedWeatherRow :=
  match filter (weather_city_on (normalize_weather w)) (map normalize_city cities) with
  | [] => [prepare_merged (merged_row (normalize_weather w, None))]
  | matches =>
      map (fun c => prepare_merged (merged_row (normalize_weather w, Some c))) matches
  end.

End JoinRows.

(* ------------------------------------------------------------------ *)
(** * The fetch, value by value *)

Module FetchRows.

Import WeatherFetch.

(** The entry of variable [param] at index [i] of a decoded [hourly] dict,
    where the variable has an array that reaches index [i]. *)
Definition value_at (hourly : list (string * json)) (param : string) (i : nat) : json :=
  match lookup param hourly with
  | Some (JList series) => nth i series JNull
  | _ => JNull
  end.

(** The [city_info] dict the reader builds from a catalog row. *)
Definition location_of (r : CatalogRow) : Location :=
  {| city := cr_name r; latitude := cr_latitude r; longitude := cr_longitude r |}.

End FetchRows.

(* ------------------------------------------------------------------ *)
(** * Concrete inputs *)

Module Cases.

Import Py BuildFact WeatherFetch.
Local Open Scope float_scope.
Local Open Scope string_scope.



(** A second reading for Berlin in the hour of [Scenario.observation]. *)
Definition observation_again : WeatherRow :=
  {| w_city := "Berlin "; w_latitude := 52.52; w_longitude := 13.40;
     w_timestamp := Timestamp 2022 7 1 8 0 0;
     w_temperature_2m := 21.4; w_windspeed_10m := 5.0;
     w_precipitation := 0.0; w_weathercode := Some 2%Z |}.




(** The same with an empty catalog. *)
Definition two_readings_no_catalog : Frames :=
  {| shipments_df := [Scenario.shipment];
     cities_df := [];
     weather_df := [Scenario.observation; observation_again] |}.



Definition berlin_location : Location :=
  {| city := "Berlin"; latitude := Some 52.52; longitude := Some 13.40 |}.

(** A response with two hours of data in which the upstream left out the
    array of [weathercode]. *)
Definition two_hours_without_weathercode : json :=
  JDict [("hourly",
          JDict [("time", JList [JStr "2022-07-01T00:00"; JStr "2022-07-01T01:00"]);
                 ("temperature_2m", JList [JFloat 18.2; JFloat 17.9]);
                 ("windspeed_10m", JList [JFloat 6.4; JFloat 5.8]);
                 ("precipitation", JList [JFloat 0.0; JFloat 0.1])])].

(** The same with a single hour. *)
Definition one_hour_without_weathercode : json :=
  JDict [("hourly",
          JDict [("time", JList [JStr "2022-07-01T00:00"]);
                 ("temperature_2m", JList [JFloat 18.2]);
                 ("windspeed_10m", JList [JFloat 6.4]);
                 ("precipitation", JList [JFloat 0.0])])].

Definition always (outcome : HttpOutcome) : Endpoint := fun _ _ => outcome.

Definition fresh : World := {| invocations := 0; slept := 0; log := [] |}.

(** A catalog row with a latitude and no longitude. *)
Definition half_geocoded : CatalogRow :=
  {| cr_id := 7; cr_name := "Atlantis"; cr_latitude := Some 31.0; cr_longitude := None |}.

End Cases.

(* ------------------------------------------------------------------ *)
(** * scripts/ingestion/weather_fetch.py: the collector *)

Module Collector.

Import Py WeatherFetch.

(** The records [collect_and_store_weather_data] logs itself; they go to
    the same log as those of the functions it calls, after them. *)
Inductive Message :=
| NoCities                        (* "No cities to process. Exiting." *)
| NoWeatherData                   (* "No weather data was collected." *)
| Saved (path : string).          (* "Weather data saved to {output_file}" *)

(** What a run of the collector leaves behind: the CSV file it wrote, if
    any, as path and rows, and its own log records.  Writing the file is
    taken to succeed. *)
Record Run := {
  written : option (string * list Observation);
  notes : list (LogLevel * Message)
}.

Definition output_dir : string := "data/raw/weather/".

(** [f"{output_dir}/weather_data_2022_07.csv"] *)
Definition output_file : string := output_dir ++ "/weather_data_2022_07.csv".

(** The loop of lines 154-157, with the records accumulated so far.  The
    fetch is called with its defaults: three retries, two seconds. *)
Fixpoint fetch_all (endpoint : Endpoint) (cities : list Location)
    (all_weather_records : list Observation) (w : World)
  : py (list Observation) * World :=
  match cities with
  | [] => (Return all_weather_records, w)
  | city_info :: cities' =>
      match fetch_weather_for_city endpoint city_info 3 2 w with
      | (Raise e, w) => (Raise e, w)
      | (Return city_weather, w) =>
          let all_weather_records :=
            if empty city_weather
            then all_weather_records
            else all_weather_records ++ city_weather in
          fetch_all endpoint cities' all_weather_records w
      end
  end.

Definition collect_and_store_weather_data (db : Database) (endpoint : Endpoint)
    (w : World) : py Run * World :=
  let (cities, records) := fetch_cities_from_db db in
  let w := {| invocations := invocations w; slept := slept w;
              log := log w ++ records |} in
  if empty cities
  then (Return {| written := None; notes := [(WARNING, NoCities)] |}, w)
  else
    match fetch_all endpoint cities [] w with
    | (Raise e, w) => (Raise e, w)
    | (Return all_weather_records, w) =>
        if empty all_weather_records
        then (Return {| written := None; notes := [(WARNING, NoWeatherData)] |}, w)
        else (Return {| written := Some (output_file, all_weather_records);
                        notes := [(INFO, Saved output_file)] |}, w)
    end.

End Collector.

(* ------------------------------------------------------------------ *)
(** * scripts/processing/build_fact_shipments_weather.py: the pipeline *)

Module Pipeline.

Import Py BuildFact.

(** The two tables as [pd.read_sql] finds them; [None] is a read that
    raises [SQLAlchemyError]. *)
Record Database := {
  shipments_table : option (list ShipmentRow);
  cities_table : option (list CityRow)
}.

(** A path on disk, as [load_weather_csv] finds it. *)
Inductive CsvFile :=
| NotThere                             (* [os.path.exists] is false *)
| Unreadable                           (* [pd.read_csv] raises *)
| Table (rows : list WeatherRow).

Definition FileSystem : Type := string -> CsvFile.

Inductive Message :=
| Started                        (* "ETL pipeline started." *)
| LoadedFromDatabase             (* "Successfully loaded shipments and cities from database." *)
| DatabaseLoadError              (* "Database load error: {e}" *)
| WeatherCsvNotFound (path : string)   (* "Weather CSV not found: {filepath}" *)
| LoadedWeather (n : nat)        (* "Loaded weather data: {n} records." *)
| WeatherCsvError                (* "Error reading weather CSV: {e}" *)
| FromJoin (m : LogMessage)      (* a record of [preprocess_and_join] *)
| WriteSkipped                   (* "Fact table is empty. CSV write skipped." *)
| FactTableWritten (path : string)     (* "Fact table written to: {output_path}" *)
| Completed.                     (* "ETL pipeline completed successfully." *)

Definition Record_ : Type := LogLevel * Message.

Definition WEATHER_CSV_PATH : string := "data/raw/weather/weather_data_2022_07.csv".

(** [pd.DataFrame()] on failure for both tables, whichever read failed. *)
Definition load_shipments_and_cities (db : Database)
  : (list ShipmentRow * list CityRow) * list Record_ :=
  match shipments_table db with
  | Some shipments_df =>
      match cities_table db with
      | Some cities_df => ((shipments_df, cities_df), [(INFO, LoadedFromDatabase)])
      | None => (([], []), [(ERROR, DatabaseLoadError)])
      end
  | None => (([], []), [(ERROR, DatabaseLoadError)])
  end.

Definition load_weather_csv (fs : FileSystem) (filepath : string)
  : list WeatherRow * list Record_ :=
  match fs filepath with
  | NotThere => ([], [(ERROR, WeatherCsvNotFound filepath)])
  | Table df => (df, [(INFO, LoadedWeather (List.length df))])
  | Unreadable => ([], [(ERROR, WeatherCsvError)])
  end.

(** The file written, if any, as path and rows. *)
Definition write_fact_table_to_csv (df : list FactRecord)
  : option (string * list FactRecord) * list Record_ :=
  if empty df
  then (None, [(WARNING, WriteSkipped)])
  else
    let output_path := "data/processed/fact_shipments_weather.csv"%string in
    (Some (output_path, df), [(INFO, FactTableWritten output_path)]).

Record Result := {
  output : option (string * list FactRecord);
  log : list Record_
}.

Definition main (db : Database) (fs : FileSystem) : Result :=
  let '((shipments_df, cities_df), db_log) := load_shipments_and_cities db in
  let '(weather_df, csv_log) := load_weather_csv fs WEATHER_CSV_PATH in
  let joined :=
    preprocess_and_join
      {| shipments_df := shipments_df; cities_df := cities_df; weather_df := weather_df |} in
  let '(file, write_log) := write_fact_table_to_csv (returned joined) in
  {| output := file;
     log := [(INFO, Started)] ++ db_log ++ csv_log
            ++ map (fun r => (fst r, FromJoin (snd r))) (logged joined)
            ++ write_log ++ [(INFO, Completed)] |}.

End Pipeline.

(* ------------------------------------------------------------------ *)
(** * scripts/load/load_fact_table_to_postgres.py *)

Module Loader.

Import Py BuildFact.

(** The warehouse: whether schema [analytics] exists, and the rows of
    [analytics.fact_shipments_weather] when the table exists. *)
Record Warehouse := {
  analytics_schema : bool;
  fact_shipments_weather : option (list FactRecord)
}.

(** The server as the engine finds it; [Down] is a connection that fails.
    On a server that is up the statements are taken to succeed. *)
Inductive Server :=
| Down
| Up (wh : Warehouse).

(** The file at [csv_path]. *)
Inductive CsvFile :=
| NotThere                             (* [os.path.exists] is false *)
| Unreadable                           (* [pd.read_csv] raises *)
| Table (rows : list FactRecord).

Inductive Message :=
| CsvNotFound                    (* "CSV file not found: {csv_path}" *)
| EnsuredSchema                  (* "Ensured schema 'analytics' exists." *)
| EnsuredTable                   (* "Ensured table 'analytics.fact_shipments_weather' exists." *)
| Loaded (n : nat)               (* "Loaded {n} rows into analytics.fact_shipments_weather" *)
| LoadError.                     (* "Error during load: {e}" *)

(** [CREATE SCHEMA IF NOT EXISTS] and [CREATE TABLE IF NOT EXISTS], in one
    transaction. *)
Definition ensure_schema_and_table (wh : Warehouse) : Warehouse :=
  {| analytics_schema := true;
     fact_shipments_weather :=
       match fact_shipments_weather wh with
       | Some rows => Some rows
       | None => Some []
       end |}.

(** [df.to_sql(..., if_exists="append", index=False)] *)
Definition to_sql_append (df : list FactRecord) (wh : Warehouse) : Warehouse :=
  {| analytics_schema := analytics_schema wh;
     fact_shipments_weather :=
       match fact_shipments_weather wh with
       | Some rows => Some (rows ++ df)
       | None => Some df
       end |}.

Definition load_fact_table_to_postgres (file : CsvFile) (server : Server)
  : Server * list (LogLevel * Message) :=
  match file with
  | NotThere => (server, [(ERROR, CsvNotFound)])
  | _ =>
      match server with
      | Down => (Down, [(ERROR, LoadError)])
      | Up wh =>
          let wh := ensure_schema_and_table wh in
          let ddl_log := [(INFO, EnsuredSchema); (INFO, EnsuredTable)] in
          match file with
          | Table df =>
              (Up (to_sql_append df wh), ddl_log ++ [(INFO, Loaded (List.length df))])
          | _ => (Up wh, ddl_log ++ [(ERROR, LoadError)])
          end
      end
  end.

End Loader.

(* ------------------------------------------------------------------ *)
(** * The collector, city by city *)

Module CollectorRows.

Import Py WeatherFetch.

(** What a city contributes when the endpoint gives answer [answer] to its
    request: the observations of the attempt, or nothing when it raises. *)
Definition contribution (answer : Request -> HttpOutcome) (ci : Location)
  : list Observation :=
  match attempt ci (answer (request_params ci)) with
  | Return obs => obs
  | Raise _ => []
  end.

(** The requests the fetch makes for that city with three retries: one
    when the attempt returns, three when it raises. *)
Definition requests_made (answer : Request -> HttpOutcome) (ci : Location) : nat :=
  match attempt ci (answer (request_params ci)) with
  | Return _ => 1
  | Raise _ => 3
  end.

End CollectorRows.

(* ------------------------------------------------------------------ *)
(** * The loader, row by row *)

Module LoaderRows.

Import BuildFact Loader.

(** The rows the fact table holds; none when the server is down or the
    table does not exist. *)
Definition stored (server : Server) : list FactRecord :=
  match server with
  | Up wh =>
      match fact_shipments_weather wh with
      | Some rows => rows
      | None => []
      end
  | Down => []
  end.

End LoaderRows.

(* ------------------------------------------------------------------ *)
(** * More concrete inputs *)

Module MoreCases.

Import Py BuildFact WeatherFetch.
Local Open Scope float_scope.
Local Open Scope string_scope.

Definition paris_location : Location :=
  {| city := "Paris"; latitude := Some 48.85; longitude := Some 2.35 |}.

(** A complete response with one hour of data. *)
Definition one_hour_hourly : list (string * json) :=
  [("time", JList [JStr "2022-07-01T00:00"]);
   ("temperature_2m", JList [JFloat 18.2]);
   ("windspeed_10m", JList [JFloat 6.4]);
   ("precipitation", JList [JFloat 0.0]);
   ("weathercode", JList [JInt 3])].

Definition one_hour : json := JDict [("hourly", JDict one_hour_hourly)].

(** The observations of that response for Berlin. *)
Definition berlin_one_hour : list Observation :=
  [ {| o_city := "Berlin";
       o_latitude := Some 52.52;
       o_longitude := Some 13.40;
       o_timestamp := JStr "2022-07-01T00:00";
       o_values := [("temperature_2m", JFloat 18.2);
                    ("windspeed_10m", JFloat 6.4);
                    ("precipitation", JFloat 0.0);
                    ("weathercode", JInt 3)] |} ].

(** The arrays of [Cases.two_hours_without_weathercode]. *)
Definition two_hours_hourly : list (string * json) :=
  [("time", JList [JStr "2022-07-01T00:00"; JStr "2022-07-01T01:00"]);
   ("temperature_2m", JList [JFloat 18.2; JFloat 17.9]);
   ("windspeed_10m", JList [JFloat 6.4; JFloat 5.8]);
   ("precipitation", JList [JFloat 0.0; JFloat 0.1])].


(** An endpoint that fails the first request made to it and answers the
    later ones. *)
Definition fails_once : Endpoint :=
  fun _ n => match n with
             | O => NoResponse
             | S _ => Response 200 (Some one_hour)
             end.

(** Answers by request: nothing for the latitude of Paris, one hour of data
    for any other. *)
Definition no_answer_for_paris (req : Request) : HttpOutcome :=
  match q_latitude req with
  | Some lat => if PrimFloat.eqb lat 48.85
                then NoResponse
                else Response 200 (Some one_hour)
  | None => NoResponse
  end.

(** A catalog of three rows, one of them without a longitude. *)
Definition catalog : Database :=
  Available
    [ {| cr_id := 9; cr_name := "Berlin";
         cr_latitude := Some 52.52; cr_longitude := Some 13.40 |};
      {| cr_id := 4; cr_name := "Paris";
         cr_latitude := Some 48.85; cr_longitude := Some 2.35 |};
      Cases.half_geocoded ].

(** The sources of the end-to-end scenario, as the pipeline reads them. *)
Definition sources : Pipeline.Database :=
  {| Pipeline.shipments_table := Some [Scenario.shipment];
     Pipeline.cities_table := Some [Scenario.berlin] |}.



End MoreCases.

(* ------------------------------------------------------------------ *)
(** * Rows that differ in the spelling of names only *)

Module Respelling.

Import Py BuildFact.

(** The same shipment, with a start location that normalizes to the same
    key; the two key columns the join assigns are left out of account. *)
Definition same_shipment (s s' : ShipmentRow) : Prop :=
  sh_id s = sh_id s'
  /\ normalize (sh_start_location s) = normalize (sh_start_location s')
  /\ sh_shipment_start_timestamp s = sh_shipment_start_timestamp s'
  /\ sh_consumed_fuel s = sh_consumed_fuel s'.

Definition same_city (c c' : CityRow) : Prop :=
  c_id c = c_id c'
  /\ normalize (c_name c) = normalize (c_name c')
  /\ c_latitude c = c_latitude c'
  /\ c_longitude c = c_longitude c'.

Definition same_observation (w w' : WeatherRow) : Prop :=
  normalize (w_city w) = normalize (w_city w')
  /\ w_latitude w = w_latitude w'
  /\ w_longitude w = w_longitude w'
  /\ w_timestamp w = w_timestamp w'
  /\ w_temperature_2m w = w_temperature_2m w'
  /\ w_windspeed_10m w = w_windspeed_10m w'
  /\ w_precipitation w = w_precipitation w'
  /\ w_weathercode w = w_weathercode w'.

End Respelling.

(* ------------------------------------------------------------------ *)
(** * Theorems *)

Import Py BuildFact JoinRows WeatherFetch FetchRows.

(** The literals of the scenario denote the instants they name. *)
Example Timestamp_epoch : Timestamp 1970 1 1 0 0 0 = 0.
Proof. reflexivity. Qed.

Example Timestamp_scenario :
  Timestamp 2022 7 1 8 15 0 = 1656663300 * NS_PER_SECOND
  /\ floor_h (Timestamp 2022 7 1 8 15 0) = Timestamp 2022 7 1 8 0 0.
Proof. split; reflexivity. Qed.

(** C1. On the single-row inputs of the end-to-end scenario the join returns
    exactly one fact record, the expected one; its timestamp is the
    shipment's own 08:15:00, not the 08:00:00 the rows were matched on. *)
Theorem C1_end_to_end_scenario :
  returned (preprocess_and_join Scenario.inputs) = [Scenario.expected]
  /\ timestamp Scenario.expected = sh_shipment_start_timestamp Scenario.shipment
  /\ timestamp Scenario.expected <> floor_h (sh_shipment_start_timestamp Scenario.shipment).
Proof.
  split; [ vm_compute; reflexivity | split; [ reflexivity | ] ].
  vm_compute. discriminate.
Qed.

(* ------------------------------------------------------------------ *)
(** * Lemmas on the join *)

Section ListFacts.

Context {A B : Type}.

Lemma filter_map_comm (f : B -> bool) (g : A -> B) (l : list A) :
  filter f (map g l) = map g (filter (fun a => f (g a)) l).
Proof.
  induction l as [| a l IH]; simpl; [ reflexivity | ].
  destruct (f (g a)); simpl; now rewrite IH.
Qed.

Lemma filter_all (f : A -> bool) (l : list A) :
  (forall a, In a l -> f a = true) -> filter f l = l.
Proof.
  induction l as [| a l IH]; simpl; intros H; [ reflexivity | ].
  rewrite (H a (or_introl eq_refl)). f_equal. apply IH. intros; apply H; now right.
Qed.

Lemma filter_none (f : A -> bool) (l : list A) :
  (forall a, In a l -> f a = false) -> filter f l = [].
Proof.
  induction l as [| a l IH]; simpl; intros H; [ reflexivity | ].
  rewrite (H a (or_introl eq_refl)). apply IH. intros; apply H; now right.
Qed.

End ListFacts.

Lemma merge_left_cons {A B : Type} (on : A -> B -> bool) a left right :
  merge_left on (a :: left) right
  = match filter (on a) right with
    | [] => [(a, None)]
    | matches => map (fun r => (a, Some r)) matches
    end ++ merge_left on left right.
Proof. reflexivity. Qed.

Lemma enriched_weather_flat_map cities weather :
  enriched_weather cities weather = flat_map (enriched_rows cities) weather.
Proof.
  unfold enriched_weather.
  induction weather as [| w ws IH]; [ reflexivity | ].
  change (map normalize_weather (w :: ws))
    with (normalize_weather w :: map normalize_weather ws).
  rewrite merge_left_cons, !map_app, IH.
  change (flat_map (enriched_rows cities) (w :: ws))
    with (enriched_rows cities w ++ flat_map (enriched_rows cities) ws).
  f_equal. unfold enriched_rows.
  destruct (filter _ _) as [| c cs]; [ reflexivity | ].
  now rewrite !map_map.
Qed.

Lemma filter_normalized_cities w cities :
  filter (weather_city_on (normalize_weather w)) (map normalize_city cities)
  = map normalize_city (filter (catalog_matches w) cities).
Proof. rewrite filter_map_comm. reflexivity. Qed.

(** Every enriched row of [w] carries the key of [w]. *)
Lemma on_enriched_row s w cities m :
  In m (enriched_rows cities w) ->
  shipment_weather_on (prepare_shipment s) m = shipment_matches s w.
Proof.
  unfold enriched_rows.
  destruct (filter _ _) as [| c cs].
  - intros [<- | []]. reflexivity.
  - intros H. apply in_map_iff in H. destruct H as [c' [<- _]]. reflexivity.
Qed.

Lemma project_enriched_rows s w cities :
  map (fun m => project (prepare_shipment s, m)) (enriched_rows cities w)
  = map (fact_of s w) (city_ids cities w).
Proof.
  unfold enriched_rows, city_ids.
  rewrite filter_normalized_cities.
  destruct (filter (catalog_matches w) cities) as [| c cs]; simpl; [ reflexivity | ].
  f_equal. rewrite !map_map. reflexivity.
Qed.

(** The rows the inner merge produces for one shipment, projected. *)
Lemma project_matches_rows_of s cities weather :
  map project
      (map (fun m => (prepare_shipment s, m))
           (filter (shipment_weather_on (prepare_shipment s))
                   (enriched_weather cities weather)))
  = rows_of cities weather s.
Proof.
  rewrite enriched_weather_flat_map. unfold rows_of.
  induction weather as [| w ws IH]; simpl; [ reflexivity | ].
  rewrite filter_app, !map_app, IH. f_equal.
  destruct (shipment_matches s w) eqn:E.
  - rewrite filter_all by (intros m Hm; now rewrite (on_enriched_row s w cities m Hm)).
    rewrite map_map. apply project_enriched_rows.
  - rewrite filter_none by (intros m Hm; now rewrite (on_enriched_row s w cities m Hm)).
    reflexivity.
Qed.

(** The projected inner merge is the concatenation, shipment by shipment,
    of the shipments' rows. *)
Lemma project_merge_inner shipments cities weather :
  map project
      (merge_inner shipment_weather_on (map prepare_shipment shipments)
                   (enriched_weather cities weather))
  = flat_map (rows_of cities weather) shipments.
Proof.
  unfold merge_inner.
  induction shipments as [| s ss IH]; simpl; [ reflexivity | ].
  rewrite map_app, IH. f_equal. apply project_matches_rows_of.
Qed.

(** What the join returns: nothing when an input is empty, else the rows of
    the shipments in order. *)
Lemma returned_rows st :
  returned (preprocess_and_join st)
  = if empty (shipments_df st) || empty (cities_df st) || empty (weather_df st)
    then []
    else flat_map (rows_of (cities_df st) (weather_df st)) (shipments_df st).
Proof.
  unfold preprocess_and_join.
  destruct (empty (shipments_df st) || empty (cities_df st) || empty (weather_df st));
    [ reflexivity | ].
  rewrite <- project_merge_inner. unfold enriched_weather.
  destruct (merge_inner _ _ _); reflexivity.
Qed.

(** Only an empty catalog can make the guard change the result. *)
Lemma returned_rows_cities st :
  returned (preprocess_and_join st)
  = if empty (cities_df st) then []
    else flat_map (rows_of (cities_df st) (weather_df st)) (shipments_df st).
Proof.
  rewrite returned_rows.
  destruct (shipments_df st) as [| s ss]; simpl.
  - now destruct (empty (cities_df st)).
  - destruct (empty (cities_df st)); simpl; [ reflexivity | ].
    destruct (weather_df st); simpl; [ | reflexivity ].
    unfold rows_of; simpl.
    induction ss; simpl; auto.
Qed.


Lemma in_rows_of cities weather s r :
  In r (rows_of cities weather s) <->
  exists w cid, In w weather /\ shipment_matches s w = true
                /\ In cid (city_ids cities w) /\ r = fact_of s w cid.
Proof.
  unfold rows_of. rewrite in_flat_map. split.
  - intros [w [Hw Hr]]. destruct (shipment_matches s w) eqn:E; [ | contradiction ].
    apply in_map_iff in Hr. destruct Hr as [cid [<- Hcid]]. now exists w, cid.
  - intros [w [cid [Hw [E [Hcid ->]]]]]. exists w. split; [ exact Hw | ].
    rewrite E. now apply in_map.
Qed.

Lemma in_city_ids cities w cid :
  In cid (city_ids cities w) <->
  (exists c, In c cities /\ catalog_matches w c = true /\ cid = Some (c_id c))
  \/ ((forall c, In c cities -> catalog_matches w c = false) /\ cid = None).
Proof.
  unfold city_ids. destruct (filter (catalog_matches w) cities) as [| c0 cs] eqn:E.
  - split.
    + intros [<- | []]. right. split; [ | reflexivity ].
      intros c Hc. destruct (catalog_matches w c) eqn:Ec; [ | reflexivity ].
      assert (In c (filter (catalog_matches w) cities)) as Hin by now apply filter_In.
      rewrite E in Hin. contradiction.
    + intros [[c [Hc [Ec _]]] | [_ ->]]; [ | now left ].
      assert (In c (filter (catalog_matches w) cities)) as Hin by now apply filter_In.
      rewrite E in Hin. contradiction.
  - rewrite <- E. rewrite in_map_iff. split.
    + intros [c [<- Hc]]. apply filter_In in Hc. left. now exists c.
    + intros [[c [Hc [Ec ->]]] | [Hno _]].
      * exists c. split; [ reflexivity | now apply filter_In ].
      * assert (In c0 (filter (catalog_matches w) cities)) as Hin
          by (rewrite E; now left).
        apply filter_In in Hin. destruct Hin as [Hin Ec0].
        rewrite (Hno c0 Hin) in Ec0. discriminate.
Qed.

Lemma shipment_matches_true s w :
  shipment_matches s w = true <->
  normalize (sh_start_location s) = normalize (w_city w)
  /\ floor_h (sh_shipment_start_timestamp s) = floor_h (w_timestamp w).
Proof.
  unfold shipment_matches. rewrite andb_true_iff, String.eqb_eq, Z.eqb_eq. reflexivity.
Qed.


(* ------------------------------------------------------------------ *)
(** * The claims about the join *)

(** C2. If at least one of the three input tables is empty, the join returns
    an empty table and does no work on its inputs: the frames are left as
    they were passed, and the only thing logged is the warning about empty
    inputs. *)
Theorem C2_empty_input_short_circuit (st : Frames) :
  shipments_df st = [] \/ cities_df st = [] \/ weather_df st = [] ->
  preprocess_and_join st
  = {| returned := []; frames := st; logged := [(WARNING, EmptyInputs)] |}.
Proof.
  intros H. unfold preprocess_and_join.
  destruct H as [-> | [-> | ->]]; simpl; rewrite ?orb_true_r; reflexivity.
Qed.


(** The frames as the join leaves them. *)
Lemma frames_after st :
  frames (preprocess_and_join st)
  = if empty (shipments_df st) || empty (cities_df st) || empty (weather_df st)
    then st
    else {| shipments_df := map prepare_shipment (shipments_df st);
            cities_df := map normalize_city (cities_df st);
            weather_df := map normalize_weather (weather_df st) |}.
Proof.
  unfold preprocess_and_join.
  destruct (empty (shipments_df st) || empty (cities_df st) || empty (weather_df st));
    [ reflexivity | ].
  destruct (empty (merge_inner _ _ _)); reflexivity.
Qed.







(** C9, as the code has it.  The join assigns to the frames it is given.
    It never changes the number or order of their rows, the catalog's [id],
    [latitude] and [longitude], or the shipments' [id], [start_location],
    [shipment_start_timestamp] and [consumed_fuel].  When an input is empty
    it leaves the frames untouched; otherwise the catalog's [name] column
    holds the normalized names afterwards, and the shipments table has the
    two key columns [hourly_timestamp] and [city]. *)
Theorem C9_frames_after_join (st : Frames) :
  map c_id (cities_df (frames (preprocess_and_join st))) = map c_id (cities_df st)
  /\ map c_latitude (cities_df (frames (preprocess_and_join st)))
     = map c_latitude (cities_df st)
  /\ map c_longitude (cities_df (frames (preprocess_and_join st)))
     = map c_longitude (cities_df st)
  /\ map sh_id (shipments_df (frames (preprocess_and_join st)))
     = map sh_id (shipments_df st)
  /\ map sh_start_location (shipments_df (frames (preprocess_and_join st)))
     = map sh_start_location (shipments_df st)
  /\ map sh_shipment_start_timestamp (shipments_df (frames (preprocess_and_join st)))
     = map sh_shipment_start_timestamp (shipments_df st)
  /\ map sh_consumed_fuel (shipments_df (frames (preprocess_and_join st)))
     = map sh_consumed_fuel (shipments_df st)
  /\ if empty (shipments_df st) || empty (cities_df st) || empty (weather_df st)
     then frames (preprocess_and_join st) = st
     else map c_name (cities_df (frames (preprocess_and_join st)))
          = map (fun c => normalize (c_name c)) (cities_df st)
          /\ map sh_hourly_timestamp (shipments_df (frames (preprocess_and_join st)))
             = map (fun s => Some (floor_h (sh_shipment_start_timestamp s)))
                   (shipments_df st)
          /\ map sh_city (shipments_df (frames (preprocess_and_join st)))
             = map (fun s => Some (normalize (sh_start_location s))) (shipments_df st).
Proof.
  rewrite frames_after.
  destruct (empty (shipments_df st) || empty (cities_df st) || empty (weather_df st)).
  - repeat split; reflexivity.
  - simpl. rewrite !map_map. simpl. repeat split; reflexivity.
Qed.

(* ------------------------------------------------------------------ *)
(** * The claims about the weather fetch *)

Lemma comprehension_raises {A B : Type} (f : A -> py B) (xs : list A) (x : A) :
  In x xs -> (exists e, f x = Raise e) -> exists e, comprehension f xs = Raise e.
Proof.
  induction xs as [| y ys IH]; intros Hin Hx; [ contradiction | ].
  simpl. destruct (f y) as [b | e] eqn:Ey; simpl; [ | now exists e ].
  destruct Hin as [-> | Hin].
  - destruct Hx as [e He]. congruence.
  - destruct (IH Hin Hx) as [e He]. rewrite He. now exists e.
Qed.

(** The kinds of failure the fetch is written for. *)
Lemma attempt_no_response ci : attempt ci NoResponse = Raise RequestException.
Proof. reflexivity. Qed.

Lemma attempt_http_error ci status_code body :
  400 <= status_code < 600 ->
  attempt ci (Response status_code body) = Raise (HTTPError status_code).
Proof.
  intros [Hlo Hhi]. unfold attempt, raise_for_status.
  apply Z.leb_le in Hlo. apply Z.ltb_lt in Hhi. now rewrite Hlo, Hhi.
Qed.

Lemma attempt_decode_error ci status_code :
  raise_for_status status_code = Return tt ->
  attempt ci (Response status_code None) = Raise JSONDecodeError.
Proof. intros H. unfold attempt. now rewrite H. Qed.

Lemma attempt_empty_series ci status_code data hourly :
  raise_for_status status_code = Return tt ->
  get data "hourly" (JDict []) = Return (JDict hourly) ->
  (lookup "time" hourly = None \/ lookup "time" hourly = Some (JList [])) ->
  attempt ci (Response status_code (Some data))
  = Raise (ValueError "No hourly data received.").
Proof.
  intros Hs Hd Ht. unfold attempt. rewrite Hs. cbn [bind].
  unfold observations. rewrite Hd. cbn [bind get].
  destruct Ht as [-> | ->]; reflexivity.
Qed.

(** The loop when every attempt raises. *)
Lemma retry_loop_exhausted endpoint ci delay :
  0 <= delay ->
  forall remaining attempt_no w,
    (forall n, (n < remaining)%nat ->
       exists e, attempt ci (endpoint (request_params ci) (invocations w + n)%nat) = Raise e) ->
    exists w' warnings,
      retry_loop endpoint ci delay remaining attempt_no w = (Return [], w')
      /\ invocations w' = (invocations w + remaining)%nat
      /\ slept w' = slept w + Z.of_nat remaining * delay
      /\ log w' = log w ++ warnings ++ [(ERROR, FinalFailure (city ci))]
      /\ List.length warnings = remaining
      /\ Forall (fun r => fst r = WARNING) warnings.
Proof.
  intros Hdelay. induction remaining as [| k IH]; intros attempt_no w Hfail.
  - exists (logging (ERROR, FinalFailure (city ci)) w), []. simpl.
    repeat split; try reflexivity; try lia. constructor.
  - destruct (Hfail 0%nat ltac:(lia)) as [e He].
    rewrite Nat.add_0_r in He.
    cbn [retry_loop]. rewrite He. unfold sleep.
    destruct (delay <? 0) eqn:Hneg; [ apply Z.ltb_lt in Hneg; lia | ].
    match goal with |- context [retry_loop _ _ _ k _ ?w1] => set (w1' := w1) end.
    destruct (IH (S attempt_no) w1') as [w' [ws [Hrun [Hinv [Hsl [Hlog [Hlen Hall]]]]]]].
    { intros n Hn. subst w1'. simpl.
      replace (S (invocations w + n)) with (invocations w + S n)%nat by lia.
      apply Hfail. lia. }
    exists w', ((WARNING, AttemptFailed (attempt_no + 1) (city ci) e) :: ws).
    rewrite Hrun. subst w1'. cbn [invocations slept log logging] in *.
    repeat split.
    + lia.
    + lia.
    + rewrite Hlog, <- app_assoc. reflexivity.
    + cbn [List.length]. now rewrite Hlen.
    + now constructor.
Qed.


Lemma comprehension_returns {A B : Type} (f : A -> py B) (g : A -> B) (xs : list A) :
  (forall x, In x xs -> f x = Return (g x)) ->
  comprehension f xs = Return (map g xs).
Proof.
  induction xs as [| x xs IH]; intros H; [ reflexivity | ].
  simpl. rewrite (H x (or_introl eq_refl)). simpl.
  rewrite IH by (intros; apply H; now right). reflexivity.
Qed.

(** What the fetch does when the response is complete: with a non-empty
    [time] array and, for every requested variable, an array at least as
    long, the attempt returns one observation per timestamp, in order, whose
    values are the entries of the variables' arrays at the same index. *)
Lemma observations_aligned ci data hourly t ts :
  get data "hourly" (JDict []) = Return (JDict hourly) ->
  lookup "time" hourly = Some (JList (t :: ts)) ->
  (forall param, In param WEATHER_PARAMS ->
     exists series, lookup param hourly = Some (JList series)
                    /\ (List.length (t :: ts) <= List.length series)%nat) ->
  observations ci data
  = Return (map (fun it : nat * json =>
                   {| o_city := city ci;
                      o_latitude := latitude ci;
                      o_longitude := longitude ci;
                      o_timestamp := snd it;
                      o_values := map (fun param => (param, value_at hourly param (fst it)))
                                      WEATHER_PARAMS |})
                (enumerate (t :: ts))).
Proof.
  intros Hd Ht Hall. unfold observations. rewrite Hd. cbn [bind get]. rewrite Ht.
  cbn [truthy empty negb iterate bind].
  apply comprehension_returns. intros [i t'] Hin.
  assert (i < List.length (t :: ts))%nat as Hi.
  { unfold enumerate in Hin. apply in_combine_l in Hin. apply in_seq in Hin. lia. }
  unfold values_at.
  rewrite comprehension_returns
    with (g := fun param => (param, value_at hourly param i)); [ reflexivity | ].
  intros param Hp. destruct (Hall param Hp) as [series [Hs Hlen]].
  unfold value_at. cbn [get bind]. rewrite Hs. cbn [getitem].
  destruct (nth_error series i) as [v |] eqn:Ev.
  - cbn [bind]. now rewrite (nth_error_nth _ _ JNull Ev).
  - apply nth_error_None in Ev. lia.
Qed.

(** The default [[None]] has one element: when a requested variable has no
    array and the series has a second timestamp, the attempt raises. *)
Lemma observations_omitted_variable ci data hourly t0 t1 ts param :
  get data "hourly" (JDict []) = Return (JDict hourly) ->
  lookup "time" hourly = Some (JList (t0 :: t1 :: ts)) ->
  In param WEATHER_PARAMS ->
  lookup param hourly = None ->
  exists e, observations ci data = Raise e.
Proof.
  intros Hd Ht Hp Hnone. unfold observations. rewrite Hd. cbn [bind get]. rewrite Ht.
  cbn [truthy empty negb iterate bind].
  apply comprehension_raises with (x := (1%nat, t1)).
  - unfold enumerate. cbn [List.length seq combine]. right. now left.
  - destruct (comprehension_raises
                (fun param =>
                   series <- get (JDict hourly) param (JList [JNull]) ;;
                   v <- getitem series 1 ;;
                   Return (param, v))
                WEATHER_PARAMS param Hp) as [e He].
    { exists IndexError. cbn [get bind]. now rewrite Hnone. }
    exists e. unfold values_at. now rewrite He.
Qed.

(** C4, at an input on which the code fails it.  The response has two
    timestamps and no [weathercode] array.  The attempt raises [IndexError]
    at the second timestamp, so the fetch, asked three times with the same
    answer, gives up and returns the empty list.  With a single timestamp
    the same omission does give a null [weathercode]. *)
Theorem C4_omitted_variable_two_timestamps :
  attempt Cases.berlin_location
          (Response 200 (Some Cases.two_hours_without_weathercode))
  = Raise IndexError
  /\ fetch_weather_for_city
       (Cases.always (Response 200 (Some Cases.two_hours_without_weathercode)))
       Cases.berlin_location 3 2 Cases.fresh
     = (Return [],
        {| invocations := 3; slept := 6;
           log := [(WARNING, AttemptFailed 1 "Berlin" IndexError);
                   (WARNING, AttemptFailed 2 "Berlin" IndexError);
                   (WARNING, AttemptFailed 3 "Berlin" IndexError);
                   (ERROR, FinalFailure "Berlin")] |})
  /\ attempt Cases.berlin_location
             (Response 200 (Some Cases.one_hour_without_weathercode))
     = Return [ {| o_city := "Berlin";
                   o_latitude := Some 52.52%float;
                   o_longitude := Some 13.40%float;
                   o_timestamp := JStr "2022-07-01T00:00";
                   o_values := [("temperature_2m", JFloat 18.2);
                                ("windspeed_10m", JFloat 6.4);
                                ("precipitation", JFloat 0.0);
                                ("weathercode", JNull)]%string |} ].
Proof. repeat split; vm_compute; reflexivity. Qed.

(* ------------------------------------------------------------------ *)
(** * The claim about the catalog reader *)

Lemma fetch_cities_available table :
  fst (fetch_cities_from_db (Available table))
  = map location_of
        (filter (fun r => is_not_null (cr_latitude r) && is_not_null (cr_longitude r))
                table).
Proof.
  unfold fetch_cities_from_db, query. simpl. rewrite map_map. reflexivity.
Qed.

(** C10, as the code has it.  The reader leaves a catalog row out exactly
    when the row lacks its latitude or its longitude, one of them is enough;
    a row that has both is returned as it is, in its place. *)
Theorem C10_catalog_filter (pre post : list CatalogRow) (r : CatalogRow) :
  (is_not_null (cr_latitude r) && is_not_null (cr_longitude r) = false
   <-> cr_latitude r = None \/ cr_longitude r = None)
  /\ fst (fetch_cities_from_db (Available (pre ++ r :: post)))
     = fst (fetch_cities_from_db (Available pre))
       ++ (if is_not_null (cr_latitude r) && is_not_null (cr_longitude r)
           then [location_of r] else [])
       ++ fst (fetch_cities_from_db (Available post)).
Proof.
  split.
  - destruct (cr_latitude r), (cr_longitude r); simpl; split;
      try congruence; try (intros [H | H]; congruence); auto.
  - rewrite !fetch_cities_available, filter_app, map_app. simpl.
    destruct (is_not_null (cr_latitude r) && is_not_null (cr_longitude r));
      reflexivity.
Qed.

(* ------------------------------------------------------------------ *)
(** * The theorems at concrete inputs *)

(** C2 at a table of shipments and two readings with an empty catalog. *)
Lemma C2_empty_input_short_circuit_witness :
  preprocess_and_join Cases.two_readings_no_catalog
  = {| returned := []; frames := Cases.two_readings_no_catalog;
       logged := [(WARNING, EmptyInputs)] |}.
Proof.
  apply (C2_empty_input_short_circuit Cases.two_readings_no_catalog).
  right. left. reflexivity.
Defined.








(** C9 fails as stated: after the join on the end-to-end scenario the
    catalog holds "berlin" where it held "Berlin", and the shipment has two
    more columns. *)
Lemma C9_counterexample :
  ~ (shipments_df (frames (preprocess_and_join Scenario.inputs))
     = shipments_df Scenario.inputs
     /\ cities_df (frames (preprocess_and_join Scenario.inputs))
        = cities_df Scenario.inputs).
Proof.
  intros [_ H]. apply (f_equal (map c_name)) in H. vm_compute in H. discriminate.
Qed.

(** C10 fails as stated: a row with a latitude and no longitude lacks only
    one of the two, and the reader leaves it out. *)
Lemma C10_counterexample :
  fst (fetch_cities_from_db (Available [Cases.half_geocoded])) = []
  /\ ~ (cr_latitude Cases.half_geocoded = None /\ cr_longitude Cases.half_geocoded = None).
Proof.
  split; [ reflexivity | ]. intros [H _]. discriminate.
Qed.

(* ------------------------------------------------------------------ *)
(** * More on the weather fetch *)

Lemma comprehension_inv {A B : Type} (f : A -> py B) (xs : list A) (ys : list B) :
  comprehension f xs = Return ys -> Forall2 (fun x y => f x = Return y) xs ys.
Proof.
  revert ys. induction xs as [| x xs IH]; intros ys H; simpl in H.
  - injection H as <-. constructor.
  - destruct (f x) as [y | e] eqn:Ex; simpl in H; [ | discriminate ].
    destruct (comprehension f xs) as [ys' | e] eqn:Exs; simpl in H; [ | discriminate ].
    injection H as <-. constructor; [ exact Ex | now apply IH ].
Qed.

Lemma values_at_keys hourly_data i values :
  values_at hourly_data i = Return values -> map fst values = WEATHER_PARAMS.
Proof.
  unfold values_at. intros H. apply comprehension_inv in H.
  induction H as [| param v params vs Hv _ IH]; [ reflexivity | ].
  simpl. rewrite IH. f_equal.
  destruct (get hourly_data param (JList [JNull])) as [series | e]; simpl in Hv;
    [ | discriminate ].
  destruct (getitem series i) as [x | e]; simpl in Hv; [ | discriminate ].
  now injection Hv as <-.
Qed.

Lemma iterate_truthy v items :
  truthy v = true -> iterate v = Return items -> items <> [].
Proof.
  destruct v as [| b | z | f | s | l | kv]; simpl; intros Ht Hi;
    try discriminate; injection Hi as <-.
  - destruct s; [ discriminate | ]. simpl. discriminate.
  - destruct l; [ discriminate | discriminate ].
  - destruct kv; [ discriminate | ]. simpl. discriminate.
Qed.

Lemma enumerate_snd {A : Type} (xs : list A) : map snd (enumerate xs) = xs.
Proof.
  unfold enumerate. generalize 0%nat.
  induction xs as [| x xs IH]; intros n; simpl; [ reflexivity | ].
  now rewrite IH.
Qed.

(** What a successful parse of the body looks like. *)
Lemma observations_shape ci data obs :
  observations ci data = Return obs ->
  obs <> []
  /\ Forall (fun o => o_city o = city ci
                      /\ o_latitude o = latitude ci
                      /\ o_longitude o = longitude ci
                      /\ map fst (o_values o) = WEATHER_PARAMS) obs
  /\ exists hourly_data time_series,
       get data "hourly" (JDict []) = Return hourly_data
       /\ get hourly_data "time" (JList []) = Return time_series
       /\ iterate time_series = Return (map o_timestamp obs).
Proof.
  unfold observations. intros H.
  destruct (get data "hourly" (JDict [])) as [hourly_data | e]; simpl in H;
    [ | discriminate ].
  destruct (get hourly_data "time" (JList [])) as [time_series | e] eqn:Et;
    simpl in H; [ | discriminate ].
  destruct (truthy time_series) eqn:Etruthy; simpl in H; [ | discriminate ].
  destruct (iterate time_series) as [items | e] eqn:Eitems; simpl in H;
    [ | discriminate ].
  pose proof (iterate_truthy _ _ Etruthy Eitems) as Hne.
  apply comprehension_inv in H.
  assert (map snd (enumerate items) = map o_timestamp obs
          /\ Forall (fun o => o_city o = city ci
                              /\ o_latitude o = latitude ci
                              /\ o_longitude o = longitude ci
                              /\ map fst (o_values o) = WEATHER_PARAMS) obs)
    as [Hts Hall].
  { induction H as [| [i t] o its os Ho _ IH]; [ now split | ].
    destruct (values_at hourly_data i) as [values |] eqn:Ev; simpl in Ho;
      [ | discriminate ].
    injection Ho as <-. destruct IH as [IH1 IH2]. split.
    - simpl. now rewrite IH1.
    - constructor; [ | exact IH2 ]. simpl. repeat split.
      now apply values_at_keys with (i := i) (hourly_data := hourly_data). }
  rewrite enumerate_snd in Hts. repeat split.
  - intros ->. simpl in Hts. congruence.
  - exact Hall.
  - exists hourly_data, time_series. repeat split; [ exact Et | congruence ].
Qed.

Lemma attempt_inv ci outcome obs :
  attempt ci outcome = Return obs ->
  exists status_code data,
    outcome = Response status_code (Some data)
    /\ ~ (400 <= status_code < 600)
    /\ observations ci data = Return obs.
Proof.
  destruct outcome as [| status_code body]; simpl; [ discriminate | ].
  unfold raise_for_status.
  destruct ((400 <=? status_code) && (status_code <? 600)) eqn:Es; simpl;
    [ discriminate | ].
  destruct body as [data |]; simpl; [ | discriminate ].
  intros H. exists status_code, data. repeat split; [ | exact H ].
  intros [Hlo Hhi]. apply Z.leb_le in Hlo. apply Z.ltb_lt in Hhi.
  rewrite Hlo, Hhi in Es. discriminate.
Qed.

Lemma attempt_success_nonempty ci outcome obs :
  attempt ci outcome = Return obs -> obs <> [].
Proof.
  intros H. destruct (attempt_inv ci outcome obs H) as [sc [data [_ [_ Hobs]]]].
  now destruct (observations_shape ci data obs Hobs).
Qed.

(** A successful attempt.  An attempt that returns had a response whose
    status is not an error and whose body decoded; what it returns is never
    empty, has one observation per item of the [time] series, in order, and
    each observation carries the name and coordinates of the city asked for
    and exactly the requested variables, in the order of [WEATHER_PARAMS]. *)
Theorem attempt_success_shape
    (ci : Location) (outcome : HttpOutcome) (obs : list Observation) :
  attempt ci outcome = Return obs ->
  obs <> []
  /\ Forall (fun o => o_city o = city ci
                      /\ o_latitude o = latitude ci
                      /\ o_longitude o = longitude ci
                      /\ map fst (o_values o) = WEATHER_PARAMS) obs
  /\ exists status_code data hourly_data time_series,
       outcome = Response status_code (Some data)
       /\ ~ (400 <= status_code < 600)
       /\ get data "hourly" (JDict []) = Return hourly_data
       /\ get hourly_data "time" (JList []) = Return time_series
       /\ iterate time_series = Return (map o_timestamp obs).
Proof.
  intros H. destruct (attempt_inv ci outcome obs H) as [sc [data [Hout [Hsc Hobs]]]].
  destruct (observations_shape ci data obs Hobs) as [Hne [Hall [h [t [Hh [Ht Hi]]]]]].
  repeat split; try assumption.
  now exists sc, data, h, t.
Qed.

(** The loop when the first [k] attempts raise and the next one returns. *)
Lemma retry_loop_first_success endpoint ci delay :
  0 <= delay ->
  forall k remaining attempt_no w obs,
    (k < remaining)%nat ->
    (forall n, (n < k)%nat ->
       exists e, attempt ci (endpoint (request_params ci) (invocations w + n)%nat) = Raise e) ->
    attempt ci (endpoint (request_params ci) (invocations w + k)%nat) = Return obs ->
    exists w' warnings,
      retry_loop endpoint ci delay remaining attempt_no w = (Return obs, w')
      /\ invocations w' = (invocations w + k + 1)%nat
      /\ slept w' = slept w + Z.of_nat k * delay
      /\ log w' = log w ++ warnings
      /\ List.length warnings = k
      /\ Forall (fun r => fst r = WARNING) warnings.
Proof.
  intros Hdelay. induction k as [| k IH]; intros remaining attempt_no w obs Hk Hfail Hok.
  - destruct remaining as [| remaining]; [ lia | ].
    rewrite Nat.add_0_r in Hok. cbn [retry_loop]. rewrite Hok.
    eexists; exists []. repeat split; cbn [invocations slept log List.length];
      try lia; [ now rewrite app_nil_r | constructor ].
  - destruct remaining as [| remaining]; [ lia | ].
    destruct (Hfail 0%nat ltac:(lia)) as [e He]. rewrite Nat.add_0_r in He.
    cbn [retry_loop]. rewrite He. unfold sleep.
    destruct (delay <? 0) eqn:Hneg; [ apply Z.ltb_lt in Hneg; lia | ].
    match goal with |- context [retry_loop _ _ _ remaining _ ?w1] => set (w1' := w1) end.
    destruct (IH remaining (S attempt_no) w1' obs) as [w' [ws [Hrun [Hinv [Hsl [Hlog [Hlen Hall]]]]]]].
    + lia.
    + intros n Hn. subst w1'. cbn [invocations logging].
      replace (S (invocations w) + n)%nat with (invocations w + S n)%nat by lia.
      apply Hfail. lia.
    + subst w1'. cbn [invocations logging].
      replace (S (invocations w) + k)%nat with (invocations w + S k)%nat by lia.
      exact Hok.
    + exists w', ((WARNING, AttemptFailed (attempt_no + 1) (city ci) e) :: ws).
      rewrite Hrun. subst w1'. cbn [invocations slept log logging] in *.
      repeat split.
      * lia.
      * lia.
      * rewrite Hlog, <- app_assoc. reflexivity.
      * cbn [List.length]. now rewrite Hlen.
      * now constructor.
Qed.

(** Retrying stops at the first success.  With a delay that is not
    negative, if the first [k] attempts raise and attempt [k+1] returns, with
    [k] below [retries], the fetch returns what that attempt returned, after
    [k+1] requests, [k] sleeps and [k] warnings, and logs no final failure. *)
Theorem fetch_stops_at_first_success
    (endpoint : Endpoint) (city_info : Location) (retries delay : Z) (w : World)
    (k : nat) (obs : list Observation) :
  0 <= delay ->
  Z.of_nat k < retries ->
  (forall n, (n < k)%nat ->
     exists e, attempt city_info
                 (endpoint (request_params city_info) (invocations w + n)%nat)
               = Raise e) ->
  attempt city_info (endpoint (request_params city_info) (invocations w + k)%nat)
  = Return obs ->
  exists w' warnings,
    fetch_weather_for_city endpoint city_info retries delay w = (Return obs, w')
    /\ invocations w' = (invocations w + k + 1)%nat
    /\ slept w' = slept w + Z.of_nat k * delay
    /\ log w' = log w ++ warnings
    /\ List.length warnings = k
    /\ Forall (fun r => fst r = WARNING) warnings.
Proof.
  intros Hdelay Hk Hfail Hok. unfold fetch_weather_for_city.
  apply retry_loop_first_success; try assumption. lia.
Qed.

Lemma retry_loop_bound endpoint ci delay :
  forall remaining attempt_no w,
    (invocations w <= invocations (snd (retry_loop endpoint ci delay remaining attempt_no w))
     <= invocations w + remaining)%nat
    /\ exists records,
         log (snd (retry_loop endpoint ci delay remaining attempt_no w)) = log w ++ records.
Proof.
  induction remaining as [| k IH]; intros attempt_no w.
  - cbn [retry_loop snd logging invocations log]. split; [ lia | now eexists ].
  - cbn [retry_loop].
    destruct (attempt ci _) as [result | e].
    + cbn [snd invocations log]. split; [ lia | exists []; now rewrite app_nil_r ].
    + unfold sleep. destruct (delay <? 0).
      * cbn [snd invocations log logging]. split; [ lia | now eexists ].
      * match goal with |- context [retry_loop _ _ _ k _ ?w1] => set (w1' := w1) end.
        destruct (IH (S attempt_no) w1') as [Hinv [records Hlog]].
        subst w1'. cbn [invocations log logging] in *. split; [ lia | ].
        rewrite Hlog, <- app_assoc. now eexists.
Qed.

(** The retry bound, whatever happens.  For every endpoint, city,
    configuration and world, the fetch makes at most [max(retries, 0)]
    requests, and it only appends to the log. *)
Theorem fetch_request_bound
    (endpoint : Endpoint) (city_info : Location) (retries delay : Z) (w : World) :
  (invocations w
   <= invocations (snd (fetch_weather_for_city endpoint city_info retries delay w))
   <= invocations w + Z.to_nat retries)%nat
  /\ exists records,
       log (snd (fetch_weather_for_city endpoint city_info retries delay w))
       = log w ++ records.
Proof. apply retry_loop_bound. Qed.

Lemma retry_loop_empty_inv endpoint ci delay :
  forall remaining attempt_no w w',
    retry_loop endpoint ci delay remaining attempt_no w = (Return [], w') ->
    invocations w' = (invocations w + remaining)%nat
    /\ (forall n, (n < remaining)%nat ->
          exists e, attempt ci (endpoint (request_params ci) (invocations w + n)%nat)
                    = Raise e)
    /\ exists records, log w' = log w ++ records ++ [(ERROR, FinalFailure (city ci))].
Proof.
  induction remaining as [| k IH]; intros attempt_no w w' H.
  - cbn [retry_loop] in H. injection H as <-. cbn [invocations log logging].
    repeat split; [ lia | intros n Hn; lia | now exists [] ].
  - cbn [retry_loop] in H.
    destruct (attempt ci (endpoint (request_params ci) (invocations w)))
      as [result | e] eqn:Ea.
    + injection H as -> _. exfalso. now apply (attempt_success_nonempty _ _ _ Ea).
    + unfold sleep in H. destruct (delay <? 0); [ discriminate | ].
      apply IH in H. cbn [invocations log logging] in H.
      destruct H as [Hinv [Hfail [records Hlog]]]. repeat split.
      * lia.
      * intros n Hn. destruct n as [| n].
        -- rewrite Nat.add_0_r. now exists e.
        -- replace (invocations w + S n)%nat with (S (invocations w) + n)%nat by lia.
           apply Hfail. lia.
      * exists ((WARNING, AttemptFailed (attempt_no + 1) (city ci) e) :: records).
        rewrite Hlog, <- app_assoc. reflexivity.
Qed.

(** An empty result means total failure.  The fetch returns the empty list
    only after every one of its [max(retries, 0)] attempts raised; the last
    record it logged is then the final failure of the city. *)
Theorem fetch_empty_only_when_exhausted
    (endpoint : Endpoint) (city_info : Location) (retries delay : Z) (w w' : World) :
  fetch_weather_for_city endpoint city_info retries delay w = (Return [], w') ->
  invocations w' = (invocations w + Z.to_nat retries)%nat
  /\ (forall n, (n < Z.to_nat retries)%nat ->
        exists e, attempt city_info
                    (endpoint (request_params city_info) (invocations w + n)%nat)
                  = Raise e)
  /\ exists records,
       log w' = log w ++ records ++ [(ERROR, FinalFailure (city city_info))].
Proof. apply retry_loop_empty_inv. Qed.

(** A negative delay.  When the delay is negative and the first attempt
    raises, the fetch itself raises [ValueError], from [time.sleep] in the
    handler: one request was made, one warning logged, nothing retried. *)
Theorem fetch_negative_delay_raises
    (endpoint : Endpoint) (city_info : Location) (retries delay : Z) (w : World) (e : exn) :
  delay < 0 ->
  0 < retries ->
  attempt city_info (endpoint (request_params city_info) (invocations w)) = Raise e ->
  fetch_weather_for_city endpoint city_info retries delay w
  = (Raise (ValueError "sleep length must be non-negative"),
     {| invocations := S (invocations w);
        slept := slept w;
        log := log w ++ [(WARNING, AttemptFailed 1 (city city_info) e)] |}).
Proof.
  intros Hdelay Hretries He. unfold fetch_weather_for_city.
  destruct (Z.to_nat retries) as [| k] eqn:Ek; [ lia | ].
  cbn [retry_loop]. rewrite He. unfold sleep.
  apply Z.ltb_lt in Hdelay. rewrite Hdelay. reflexivity.
Qed.

(** No retries.  With [retries] zero or negative the fetch makes no request
    at all: it returns the empty list and logs the final failure. *)
Theorem fetch_without_retries
    (endpoint : Endpoint) (city_info : Location) (retries delay : Z) (w : World) :
  retries <= 0 ->
  fetch_weather_for_city endpoint city_info retries delay w
  = (Return [],
     {| invocations := invocations w; slept := slept w;
        log := log w ++ [(ERROR, FinalFailure (city city_info))] |}).
Proof.
  intros H. unfold fetch_weather_for_city.
  replace (Z.to_nat retries) with 0%nat by lia. reflexivity.
Qed.

(* ------------------------------------------------------------------ *)
(** * The collector *)

Import CollectorRows.

Lemma in_fetch_cities db ci :
  In ci (fst (fetch_cities_from_db db)) ->
  exists table r,
    db = Available table /\ In r table
    /\ ci = location_of r
    /\ cr_latitude r <> None /\ cr_longitude r <> None.
Proof.
  destruct db as [| table]; [ intros [] | ].
  rewrite fetch_cities_available. intros H. apply in_map_iff in H.
  destruct H as [r [<- Hr]]. apply filter_In in Hr. destruct Hr as [Hr Hc].
  exists table, r. repeat split; try assumption.
  - intros E. rewrite E in Hc. discriminate.
  - intros E. rewrite E, andb_false_r in Hc. discriminate.
Qed.

(** The requests are well formed.  Whatever the database holds, every
    location the reader returns gives a request with a latitude and a
    longitude: a null coordinate never reaches the endpoint. *)
Theorem fetch_cities_requests_geocoded (db : Database) (ci : Location) :
  In ci (fst (fetch_cities_from_db db)) ->
  exists lat lon,
    q_latitude (request_params ci) = Some lat
    /\ q_longitude (request_params ci) = Some lon.
Proof.
  intros H. destruct (in_fetch_cities db ci H) as [table [r [_ [_ [-> [Hlat Hlon]]]]]].
  unfold request_params, location_of. simpl.
  destruct (cr_latitude r) as [lat |]; [ | congruence ].
  destruct (cr_longitude r) as [lon |]; [ | congruence ].
  now exists lat, lon.
Qed.

Lemma retry_loop_result endpoint ci delay :
  forall remaining attempt_no w obs w',
    retry_loop endpoint ci delay remaining attempt_no w = (Return obs, w') ->
    obs = [] \/ exists outcome, attempt ci outcome = Return obs.
Proof.
  induction remaining as [| k IH]; intros attempt_no w obs w' H; cbn [retry_loop] in H.
  - injection H as <- _. now left.
  - destruct (attempt ci (endpoint (request_params ci) (invocations w)))
      as [result | e] eqn:Ea.
    + injection H as <- _. right. exists (endpoint (request_params ci) (invocations w)).
      exact Ea.
    + unfold sleep in H. destruct (delay <? 0); [ discriminate | ].
      now apply IH in H.
Qed.

Lemma retry_loop_returns endpoint ci delay :
  0 <= delay ->
  forall remaining attempt_no w,
    exists obs, fst (retry_loop endpoint ci delay remaining attempt_no w) = Return obs.
Proof.
  intros Hdelay. induction remaining as [| k IH]; intros attempt_no w; cbn [retry_loop].
  - now eexists.
  - destruct (attempt ci _) as [result | e]; [ now eexists | ].
    unfold sleep. destruct (delay <? 0) eqn:Hneg; [ apply Z.ltb_lt in Hneg; lia | ].
    apply IH.
Qed.

(** One call of the fetch with the collector's defaults. *)
Lemma fetch_default endpoint ci w :
  exists obs w',
    fetch_weather_for_city endpoint ci 3 2 w = (Return obs, w')
    /\ (invocations w <= invocations w' <= invocations w + 3)%nat
    /\ Forall (fun o => o_city o = city ci
                        /\ o_latitude o = latitude ci
                        /\ o_longitude o = longitude ci) obs.
Proof.
  unfold fetch_weather_for_city.
  destruct (retry_loop_returns endpoint ci 2 ltac:(lia) (Z.to_nat 3) 0%nat w) as [obs Hobs].
  destruct (retry_loop endpoint ci 2 (Z.to_nat 3) 0 w) as [r w'] eqn:Erun.
  simpl in Hobs. subst r. exists obs, w'. split; [ reflexivity | ].
  pose proof (retry_loop_bound endpoint ci 2 (Z.to_nat 3) 0%nat w) as [Hb _].
  rewrite Erun in Hb. simpl in Hb. split; [ exact Hb | ].
  destruct (retry_loop_result _ _ _ _ _ _ _ _ Erun) as [-> | [outcome Ha]];
    [ constructor | ].
  destruct (attempt_inv ci outcome obs Ha) as [sc [data [_ [_ Hd]]]].
  destruct (observations_shape ci data obs Hd) as [_ [Hall _]].
  eapply Forall_impl; [ | exact Hall ]. simpl. intuition.
Qed.

Lemma fetch_all_spec endpoint :
  forall cities all w,
    exists new w',
      Collector.fetch_all endpoint cities all w = (Return (all ++ new), w')
      /\ (invocations w <= invocations w' <= invocations w + 3 * List.length cities)%nat
      /\ Forall (fun o => exists ci, In ci cities
                                     /\ o_city o = city ci
                                     /\ o_latitude o = latitude ci
                                     /\ o_longitude o = longitude ci) new.
Proof.
  induction cities as [| ci cities IH]; intros all w.
  - exists [], w. simpl. rewrite app_nil_r. repeat split; try lia. constructor.
  - cbn [Collector.fetch_all].
    destruct (fetch_default endpoint ci w) as [obs [w1 [Hrun [Hb Hall]]]].
    rewrite Hrun.
    assert ((if empty obs then all else all ++ obs) = all ++ obs) as ->.
    { destruct obs; simpl; [ now rewrite app_nil_r | reflexivity ]. }
    destruct (IH (all ++ obs) w1) as [new [w' [Hrun' [Hb' Hall']]]].
    exists (obs ++ new), w'. rewrite Hrun', app_assoc. repeat split.
    + lia.
    + cbn [List.length]. lia.
    + apply Forall_app. split.
      * eapply Forall_impl; [ | exact Hall ]. intros o Ho. exists ci. split; [ now left | exact Ho ].
      * eapply Forall_impl; [ | exact Hall' ]. intros o [ci' [Hin Ho]].
        exists ci'. split; [ now right | exact Ho ].
Qed.

(** What the collector can leave behind.  For every database, endpoint and
    world, no fetch makes the collector raise, and it makes at most three
    requests per geocoded catalog row.  When it writes the CSV it writes it
    under [data/raw/weather//weather_data_2022_07.csv], never without rows,
    and every row carries the name and the two coordinates, both present,
    of a row of the catalog. *)
Theorem collector_outcome (db : Database) (endpoint : Endpoint) (w : World) :
  exists run w',
    Collector.collect_and_store_weather_data db endpoint w = (Return run, w')
    /\ (invocations w <= invocations w'
        <= invocations w + 3 * List.length (fst (fetch_cities_from_db db)))%nat
    /\ match Collector.written run with
       | None => True
       | Some (path, rows) =>
           path = "data/raw/weather//weather_data_2022_07.csv"%string
           /\ rows <> []
           /\ Forall (fun o => exists table r,
                          db = Available table /\ In r table
                          /\ o_city o = cr_name r
                          /\ o_latitude o = cr_latitude r
                          /\ o_longitude o = cr_longitude r
                          /\ cr_latitude r <> None /\ cr_longitude r <> None) rows
       end.
Proof.
  unfold Collector.collect_and_store_weather_data.
  pose proof (in_fetch_cities db) as Hin.
  destruct (fetch_cities_from_db db) as [cities records]. cbn [fst] in *.
  destruct (empty cities) eqn:Ecities.
  - eexists; eexists. split; [ reflexivity | ]. cbn [invocations Collector.written].
    split; [ lia | exact I ].
  - match goal with |- context [Collector.fetch_all _ _ _ ?w0] => set (w0' := w0) end.
    destruct (fetch_all_spec endpoint cities [] w0') as [new [w' [Hrun [Hb Hall]]]].
    rewrite Hrun. cbn [app]. subst w0'. cbn [invocations] in Hb.
    destruct (empty new) eqn:Enew.
    + eexists; eexists. split; [ reflexivity | ]. cbn [Collector.written].
      split; [ exact Hb | exact I ].
    + eexists; eexists. split; [ reflexivity | ]. cbn [Collector.written].
      split; [ exact Hb | ]. repeat split.
      * intros ->. discriminate.
      * eapply Forall_impl; [ | exact Hall ]. intros o [ci [Hci [Hc [Hlat Hlon]]]].
        destruct (Hin ci Hci) as [table [r [Hdb [Hr [-> [Hla Hlo]]]]]].
        exists table, r. repeat split; assumption.
Qed.

Lemma fetch_stationary endpoint answer ci w :
  (forall req n, endpoint req n = answer req) ->
  exists w',
    fetch_weather_for_city endpoint ci 3 2 w = (Return (contribution answer ci), w')
    /\ invocations w' = (invocations w + requests_made answer ci)%nat.
Proof.
  intros Hst. unfold contribution, requests_made, fetch_weather_for_city.
  destruct (attempt ci (answer (request_params ci))) as [obs | e] eqn:Ea.
  - change (Z.to_nat 3) with 3%nat. cbn [retry_loop]. rewrite Hst, Ea.
    eexists. split; [ reflexivity | ]. cbn [invocations]. lia.
  - destruct (retry_loop_exhausted endpoint ci 2 ltac:(lia) (Z.to_nat 3) 0%nat w)
      as [w' [ws [Hrun [Hinv _]]]].
    { intros n _. exists e. now rewrite Hst. }
    exists w'. split; [ exact Hrun | exact Hinv ].
Qed.

Lemma fetch_all_stationary endpoint answer :
  (forall req n, endpoint req n = answer req) ->
  forall cities all w,
    exists w',
      Collector.fetch_all endpoint cities all w
      = (Return (all ++ flat_map (contribution answer) cities), w')
      /\ invocations w'
         = (invocations w + list_sum (map (requests_made answer) cities))%nat.
Proof.
  intros Hst. induction cities as [| ci cities IH]; intros all w.
  - exists w. simpl. rewrite app_nil_r. split; [ reflexivity | lia ].
  - cbn [Collector.fetch_all].
    destruct (fetch_stationary endpoint answer ci w Hst) as [w1 [Hrun Hinv]].
    rewrite Hrun.
    assert ((if empty (contribution answer ci) then all
             else all ++ contribution answer ci)
            = all ++ contribution answer ci) as ->.
    { destruct (contribution answer ci); simpl; [ now rewrite app_nil_r | reflexivity ]. }
    destruct (IH (all ++ contribution answer ci) w1) as [w' [Hrun' Hinv']].
    exists w'. rewrite Hrun', <- app_assoc. split; [ reflexivity | ].
    rewrite Hinv', Hinv. simpl. lia.
Qed.

(** Partial coverage.  When the endpoint answers a request the same way
    each time it is asked, the table the collector writes is, in catalog
    order, what the first attempt returns for each geocoded city whose
    attempt returns; a city whose attempt raises adds no row and costs three
    requests, the others one.  Nothing is written when no row is left. *)
Theorem collector_partial_coverage
    (db : Database) (endpoint : Endpoint) (answer : Request -> HttpOutcome) (w : World) :
  (forall req n, endpoint req n = answer req) ->
  exists run w',
    Collector.collect_and_store_weather_data db endpoint w = (Return run, w')
    /\ Collector.written run
       = (let rows := flat_map (contribution answer) (fst (fetch_cities_from_db db)) in
          if empty rows then None else Some (Collector.output_file, rows))
    /\ invocations w'
       = (invocations w
          + list_sum (map (requests_made answer) (fst (fetch_cities_from_db db))))%nat.
Proof.
  intros Hst. unfold Collector.collect_and_store_weather_data.
  destruct (fetch_cities_from_db db) as [cities records]. cbn [fst].
  destruct cities as [| ci cities].
  - eexists; eexists. cbn [empty]. split; [ reflexivity | ]. simpl. split; [ reflexivity | lia ].
  - cbn [empty].
    match goal with |- context [Collector.fetch_all _ _ _ ?w0] => set (w0' := w0) end.
    destruct (fetch_all_stationary endpoint answer Hst (ci :: cities) [] w0')
      as [w' [Hrun Hinv]].
    rewrite Hrun. cbn [app]. subst w0'. cbn [invocations] in Hinv.
    set (rows := flat_map (contribution answer) (ci :: cities)) in *.
    destruct (empty rows) eqn:Erows.
    + eexists; eexists. split; [ reflexivity | ]. cbn [Collector.written].
      split; [ reflexivity | exact Hinv ].
    + eexists; eexists. split; [ reflexivity | ]. cbn [Collector.written].
      split; [ reflexivity | exact Hinv ].
Qed.

(* ------------------------------------------------------------------ *)
(** * The pipeline of build_fact_shipments_weather.py *)


(** What the pipeline writes.  [main] writes the fact CSV exactly when the
    two tables and the weather CSV were read and the join of what was read
    has a row; it then writes the join's table, as it is, under
    [data/processed/fact_shipments_weather.csv].  In every other case no
    file is written. *)
Theorem pipeline_writes_the_join (db : Pipeline.Database) (fs : Pipeline.FileSystem) :
  Pipeline.output (Pipeline.main db fs)
  = match Pipeline.shipments_table db, Pipeline.cities_table db,
          fs Pipeline.WEATHER_CSV_PATH with
    | Some shipments, Some cities, Pipeline.Table weather =>
        let rows :=
          returned (preprocess_and_join
                      {| shipments_df := shipments; cities_df := cities;
                         weather_df := weather |}) in
        if empty rows
        then None
        else Some ("data/processed/fact_shipments_weather.csv"%string, rows)
    | _, _, _ => None
    end.
Proof.
  unfold Pipeline.main, Pipeline.load_shipments_and_cities, Pipeline.load_weather_csv.
  destruct (Pipeline.shipments_table db) as [shipments |];
    destruct (Pipeline.cities_table db) as [cities |];
    destruct (fs Pipeline.WEATHER_CSV_PATH) as [| | weather];
    try reflexivity.
  - rewrite returned_rows. cbn [weather_df empty]. rewrite !orb_true_r. reflexivity.
  - rewrite returned_rows. cbn [weather_df empty]. rewrite !orb_true_r. reflexivity.
  - unfold Pipeline.write_fact_table_to_csv.
    destruct (empty (returned _)); reflexivity.
Qed.


(* ------------------------------------------------------------------ *)
(** * The loader *)

Import LoaderRows.


(** Loading twice duplicates.  Two loads of the same file into a server that
    is up leave the schema and the table in place, with the rows that were
    there followed by the rows of the file, twice: nothing is replaced and
    nothing is deduplicated. *)
Theorem loader_twice_duplicates (df : list FactRecord) (wh : Loader.Warehouse) :
  exists wh',
    fst (Loader.load_fact_table_to_postgres
           (Loader.Table df)
           (fst (Loader.load_fact_table_to_postgres (Loader.Table df) (Loader.Up wh))))
    = Loader.Up wh'
    /\ Loader.analytics_schema wh' = true
    /\ Loader.fact_shipments_weather wh'
       = Some (stored (Loader.Up wh) ++ df ++ df).
Proof.
  eexists. split; [ reflexivity | ]. simpl.
  destruct (Loader.fact_shipments_weather wh) as [rows |]; simpl.
  - now rewrite <- app_assoc.
  - split; reflexivity.
Qed.

(* ------------------------------------------------------------------ *)
(** * More on the join *)

Import Respelling.

Lemma isspace_lower_char c : isspace (lower_char c) = isspace c.
Proof.
  destruct c as [b0 b1 b2 b3 b4 b5 b6 b7];
    destruct b0, b1, b2, b3, b4, b5, b6, b7; reflexivity.
Qed.

Lemma lower_char_idem c : lower_char (lower_char c) = lower_char c.
Proof.
  destruct c as [b0 b1 b2 b3 b4 b5 b6 b7];
    destruct b0, b1, b2, b3, b4, b5, b6, b7; reflexivity.
Qed.

Lemma lower_idem s : lower (lower s) = lower s.
Proof. induction s as [| c s IH]; simpl; [ reflexivity | ]. now rewrite lower_char_idem, IH. Qed.

Lemma lstrip_lower s : lstrip (lower s) = lower (lstrip s).
Proof.
  induction s as [| c s IH]; simpl; [ reflexivity | ].
  rewrite isspace_lower_char. destruct (isspace c); [ exact IH | reflexivity ].
Qed.

Lemma rstrip_lower s : rstrip (lower s) = lower (rstrip s).
Proof.
  induction s as [| c s IH]; simpl; [ reflexivity | ].
  rewrite IH, isspace_lower_char.
  destruct (rstrip s); simpl; [ destruct (isspace c); reflexivity | reflexivity ].
Qed.

Lemma rstrip_idem s : rstrip (rstrip s) = rstrip s.
Proof.
  induction s as [| c s IH]; simpl; [ reflexivity | ].
  destruct (rstrip s) as [| c' r] eqn:E.
  - destruct (isspace c) eqn:Ec; simpl; [ reflexivity | now rewrite Ec ].
  - simpl in *. now rewrite IH.
Qed.

Lemma lstrip_head s :
  lstrip s = EmptyString \/ exists c r, lstrip s = String c r /\ isspace c = false.
Proof.
  induction s as [| c s IH]; simpl; [ now left | ].
  destruct (isspace c) eqn:Ec; [ exact IH | right; now exists c, s ].
Qed.

Lemma strip_idem s : strip (strip s) = strip s.
Proof.
  unfold strip. destruct (lstrip_head s) as [-> | [c [r [-> Hc]]]]; [ reflexivity | ].
  assert (lstrip (rstrip (String c r)) = rstrip (String c r)) as ->.
  { simpl. destruct (rstrip r); rewrite ?Hc; simpl; now rewrite Hc. }
  apply rstrip_idem.
Qed.

Lemma normalize_idem s : normalize (normalize s) = normalize s.
Proof.
  unfold normalize, strip.
  rewrite lstrip_lower, rstrip_lower, lower_idem.
  f_equal. apply strip_idem.
Qed.

Lemma city_ids_by_id cities w :
  city_ids cities w
  = match map c_id (filter (catalog_matches w) cities) with
    | [] => [None]
    | ids => map Some ids
    end.
Proof.
  unfold city_ids. destruct (filter (catalog_matches w) cities); simpl;
    [ reflexivity | now rewrite map_map ].
Qed.

Lemma city_ids_respelled cities cities' w w' :
  Forall2 same_city cities cities' ->
  same_observation w w' ->
  city_ids cities w = city_ids cities' w'.
Proof.
  intros Hc (Hn & Hlat & Hlon & _). rewrite !city_ids_by_id.
  assert (map c_id (filter (catalog_matches w) cities)
          = map c_id (filter (catalog_matches w') cities')) as ->; [ | reflexivity ].
  induction Hc as [| c c' cs cs' (Hid & Hname & Hla & Hlo) _ IH]; [ reflexivity | ].
  assert (catalog_matches w c = catalog_matches w' c') as Hm.
  { unfold catalog_matches. now rewrite Hn, Hname, Hlat, Hlon, Hla, Hlo. }
  simpl. rewrite Hm.
  destruct (catalog_matches w' c'); simpl; now rewrite ?Hid, IH.
Qed.

Lemma rows_of_respelled cities cities' weather weather' s s' :
  Forall2 same_city cities cities' ->
  Forall2 same_observation weather weather' ->
  same_shipment s s' ->
  rows_of cities weather s = rows_of cities' weather' s'.
Proof.
  intros Hc Hw (Hid & Hloc & Hts & Hfuel). unfold rows_of.
  induction Hw as [| w w' ws ws' Hww _ IH]; [ reflexivity | ].
  simpl. rewrite IH. f_equal.
  rewrite (city_ids_respelled cities cities' w w' Hc Hww).
  destruct Hww as (Hn & _ & _ & Ht & Htemp & Hwind & Hprec & Hcode).
  unfold shipment_matches. rewrite Hloc, Hn, Hts, Ht.
  destruct (_ && _); [ | reflexivity ].
  apply map_ext. intros cid. unfold fact_of.
  now rewrite Hid, Hts, Hfuel, Htemp, Hwind, Hprec, Hcode.
Qed.

Lemma Forall2_empty {A B : Type} (R : A -> B -> Prop) l l' :
  Forall2 R l l' -> empty l = empty l'.
Proof. now intros []. Qed.

Lemma returned_respelled st st' :
  Forall2 same_shipment (shipments_df st) (shipments_df st') ->
  Forall2 same_city (cities_df st) (cities_df st') ->
  Forall2 same_observation (weather_df st) (weather_df st') ->
  returned (preprocess_and_join st) = returned (preprocess_and_join st').
Proof.
  intros Hs Hc Hw. rewrite !returned_rows.
  rewrite (Forall2_empty _ _ _ Hs), (Forall2_empty _ _ _ Hc), (Forall2_empty _ _ _ Hw).
  destruct (_ || _ || _); [ reflexivity | ].
  induction Hs as [| s s' ss ss' Hss _ IH]; [ reflexivity | ].
  simpl. rewrite IH. f_equal. now apply rows_of_respelled.
Qed.


Lemma Forall2_map_r {A : Type} (R : A -> A -> Prop) (f : A -> A) l :
  (forall a, R (f a) a) -> Forall2 R (map f l) l.
Proof. intros H. induction l; simpl; constructor; auto. Qed.

(** Joining again.  The frames a call leaves behind can be joined again:
    the second call returns the same fact table as the first and leaves the
    frames as the first left them. *)
Theorem join_again_same_result (st : Frames) :
  returned (preprocess_and_join (frames (preprocess_and_join st)))
  = returned (preprocess_and_join st)
  /\ frames (preprocess_and_join (frames (preprocess_and_join st)))
     = frames (preprocess_and_join st).
Proof.
  rewrite (frames_after st).
  destruct (empty (shipments_df st) || empty (cities_df st) || empty (weather_df st))
    eqn:Eg.
  - split; [ reflexivity | ]. rewrite frames_after, Eg. reflexivity.
  - split.
    + apply returned_respelled; cbn [shipments_df cities_df weather_df];
        apply Forall2_map_r; intros x; unfold same_shipment, same_city, same_observation;
        simpl; rewrite ?normalize_idem; repeat split; reflexivity.
    + rewrite frames_after. cbn [shipments_df cities_df weather_df].
      assert (forall A (l : list A) (f : A -> A), empty (map f l) = empty l) as Hm
        by (intros A l f; now destruct l).
      rewrite !Hm, Eg, !map_map. f_equal.
      * apply map_ext. intros c. unfold normalize_city. simpl. now rewrite normalize_idem.
      * apply map_ext. intros w. unfold normalize_weather. simpl. now rewrite normalize_idem.
Qed.

Lemma float_key_eqb_refl x : float_key_eqb x x = true.
Proof. unfold float_key_eqb, isnan. now destruct (PrimFloat.eqb x x). Qed.

(** A catalog that covers the weather.  When every observation has a catalog
    row with the same name up to case and padding and with the very
    coordinates of the observation (null coordinates included, since null
    keys match), every returned record has the id of a catalog row as its
    [city_id]: none is null. *)
Theorem join_city_id_never_null (st : Frames) (r : FactRecord) :
  (forall w, In w (weather_df st) ->
     exists c, In c (cities_df st)
               /\ normalize (w_city w) = normalize (c_name c)
               /\ w_latitude w = c_latitude c
               /\ w_longitude w = c_longitude c) ->
  In r (returned (preprocess_and_join st)) ->
  exists c, In c (cities_df st) /\ city_id r = Some (c_id c).
Proof.
  intros Hcover. rewrite returned_rows.
  destruct (_ || _ || _); [ intros [] | ].
  intros Hr. apply in_flat_map in Hr. destruct Hr as [s [_ Hr]].
  apply in_rows_of in Hr. destruct Hr as [w [cid [Hw [_ [Hcid ->]]]]].
  apply in_city_ids in Hcid. destruct Hcid as [[c [Hc [_ ->]]] | [Hno _]].
  - now exists c.
  - destruct (Hcover w Hw) as [c [Hc [Hname [Hlat Hlon]]]].
    specialize (Hno c Hc). unfold catalog_matches in Hno.
    rewrite Hname, Hlat, Hlon, String.eqb_refl, !float_key_eqb_refl in Hno.
    discriminate.
Qed.

Lemma floor_h_bounds t :
  floor_h t <= t < floor_h t + NS_PER_HOUR /\ floor_h t mod NS_PER_HOUR = 0.
Proof.
  unfold floor_h.
  assert (0 < NS_PER_HOUR) as Hpos by reflexivity.
  pose proof (Z.mod_pos_bound t NS_PER_HOUR Hpos) as Hb.
  split; [ lia | ].
  rewrite Zminus_mod_idemp_r, Z.sub_diag. reflexivity.
Qed.

(** The weather of the hour.  Every returned record carries the weather
    values of an observation of the weather table whose hour, a multiple of
    3600 s, contains the record's timestamp: the hour starts at or before it
    and ends after it. *)
Theorem join_weather_of_the_hour (st : Frames) (r : FactRecord) :
  In r (returned (preprocess_and_join st)) ->
  exists w,
    In w (weather_df st)
    /\ temperature_2m r = w_temperature_2m w
    /\ windspeed_10m r = w_windspeed_10m w
    /\ precipitation r = w_precipitation w
    /\ weathercode r = w_weathercode w
    /\ floor_h (w_timestamp w) mod NS_PER_HOUR = 0
    /\ floor_h (w_timestamp w) <= timestamp r < floor_h (w_timestamp w) + NS_PER_HOUR.
Proof.
  rewrite returned_rows.
  destruct (_ || _ || _); [ intros [] | ].
  intros Hr. apply in_flat_map in Hr. destruct Hr as [s [_ Hr]].
  apply in_rows_of in Hr. destruct Hr as [w [cid [Hw [E [_ ->]]]]].
  apply shipment_matches_true in E. destruct E as [_ Hhour].
  exists w. cbn [fact_of temperature_2m windspeed_10m precipitation weathercode timestamp].
  repeat split; try assumption.
  - apply floor_h_bounds.
  - rewrite <- Hhour. apply floor_h_bounds.
  - rewrite <- Hhour. apply floor_h_bounds.
Qed.

(** The left merge loses no observation.  Every observation of the weather
    table is in the enriched weather table at least once, with its name
    normalized, whether the catalog knows its city or not; and every row of
    the enriched table is such an observation, with its hour as key. *)
Theorem enriched_weather_keeps_observations
    (cities : list CityRow) (weather : list WeatherRow) :
  (List.length weather <= List.length (enriched_weather cities weather))%nat
  /\ (forall w, In w weather ->
        exists m, In m (enriched_weather cities weather)
                  /\ mw_obs m = normalize_weather w)
  /\ (forall m, In m (enriched_weather cities weather) ->
        exists w, In w weather
                  /\ mw_obs m = normalize_weather w
                  /\ mw_hourly_timestamp m = Some (floor_h (w_timestamp w))).
Proof.
  rewrite enriched_weather_flat_map.
  assert (forall w, exists m ms,
             enriched_rows cities w = m :: ms
             /\ Forall (fun m => mw_obs m = normalize_weather w
                                 /\ mw_hourly_timestamp m = Some (floor_h (w_timestamp w)))
                       (m :: ms)) as Hrows.
  { intros w. unfold enriched_rows.
    destruct (filter _ _) as [| c cs].
    - eexists; exists []. split; [ reflexivity | ]. constructor; [ | constructor ].
      split; reflexivity.
    - eexists; eexists. split; [ reflexivity | ].
      change (Forall (fun m => mw_obs m = normalize_weather w
                               /\ mw_hourly_timestamp m = Some (floor_h (w_timestamp w)))
                (map (fun c => prepare_merged (merged_row (normalize_weather w, Some c)))
                     (c :: cs))).
      apply Forall_map. apply Forall_forall. intros c' _. split; reflexivity. }
  repeat split.
  - induction weather as [| w ws IH]; simpl; [ lia | ].
    destruct (Hrows w) as [m [ms [-> _]]]. rewrite length_app. simpl. lia.
  - intros w Hw. destruct (Hrows w) as [m [ms [E Hall]]].
    exists m. split.
    + apply in_flat_map. exists w. split; [ exact Hw | rewrite E; now left ].
    + now inversion Hall as [| ? ? [H _] _].
  - intros m Hm. apply in_flat_map in Hm. destruct Hm as [w [Hw Hm]].
    destruct (Hrows w) as [m0 [ms [E Hall]]]. rewrite E in Hm.
    rewrite Forall_forall in Hall. exists w. split; [ exact Hw | now apply Hall ].
Qed.

(** The log tells the result.  A call logs exactly one record: a warning
    when it returns no row, and otherwise the shape of the table it returns,
    its number of rows by eight columns. *)
Theorem join_log_tells_result (st : Frames) :
  (returned (preprocess_and_join st) = []
   /\ exists m, logged (preprocess_and_join st) = [(WARNING, m)])
  \/ (returned (preprocess_and_join st) <> []
      /\ logged (preprocess_and_join st)
         = [(INFO, FinalShape (List.length (returned (preprocess_and_join st))) 8)]).
Proof.
  unfold preprocess_and_join.
  destruct (_ || _ || _); [ left; split; [ reflexivity | now eexists ] | ].
  destruct (merge_inner _ _ _) as [| p ps]; cbn [empty].
  - left. split; [ reflexivity | now eexists ].
  - right. split; [ discriminate | reflexivity ].
Qed.

(** The join by batches.  The fact table of a shipments table cut in two is
    the fact table of the first part followed by that of the second, the
    catalog and the weather being the same: nothing in a shipment's records
    depends on the other shipments. *)
Theorem join_by_batches (st : Frames) (batch1 batch2 : list ShipmentRow) :
  returned (preprocess_and_join (with_shipments st (batch1 ++ batch2)))
  = returned (preprocess_and_join (with_shipments st batch1))
    ++ returned (preprocess_and_join (with_shipments st batch2)).
Proof.
  rewrite !returned_rows_cities. cbn [with_shipments cities_df weather_df shipments_df].
  destruct (empty (cities_df st)); [ reflexivity | ].
  apply flat_map_app.
Qed.

(* ------------------------------------------------------------------ *)
(** * Misaligned responses *)

Lemma in_enumerate {A : Type} (xs : list A) (i : nat) :
  (i < List.length xs)%nat -> exists x, In (i, x) (enumerate xs).
Proof.
  unfold enumerate.
  assert (forall n, (i < List.length xs)%nat ->
                    exists x, In ((n + i)%nat, x) (combine (seq n (List.length xs)) xs))
    as H.
  { revert i. induction xs as [| x xs IH]; intros i n Hi; simpl in Hi; [ lia | ].
    destruct i as [| i].
    - exists x. simpl. left. f_equal. lia.
    - destruct (IH i (S n) ltac:(lia)) as [y Hy]. exists y. simpl. right.
      replace (n + S i)%nat with (S n + i)%nat by lia. exact Hy. }
  intros Hi. exact (H 0%nat Hi).
Qed.

(** A series shorter than the time series.  When the array the code reads
    for a requested variable (the upstream's, or the one-element default
    when the upstream has none) is shorter than the [time] array, the
    attempt raises: the response is given up as a whole, not cut to the
    shorter length and not padded with nulls. *)
Theorem observations_short_series_raises
    (ci : Location) (data : json) (hourly : list (string * json))
    (times series : list json) (param : string) :
  get data "hourly" (JDict []) = Return (JDict hourly) ->
  lookup "time" hourly = Some (JList times) ->
  In param WEATHER_PARAMS ->
  get (JDict hourly) param (JList [JNull]) = Return (JList series) ->
  (List.length series < List.length times)%nat ->
  exists e, observations ci data = Raise e.
Proof.
  intros Hd Ht Hp Hs Hlen. unfold observations. rewrite Hd. cbn [bind].
  cbn [get]. rewrite Ht.
  destruct times as [| t0 times']; [ simpl in Hlen; lia | ].
  cbn [truthy empty negb iterate bind].
  destruct (in_enumerate (t0 :: times') (List.length series) Hlen) as [t Hin].
  apply comprehension_raises with (x := (List.length series, t)); [ exact Hin | ].
  destruct (comprehension_raises
              (fun param =>
                 series0 <- get (JDict hourly) param (JList [JNull]) ;;
                 v <- getitem series0 (List.length series) ;;
                 Return (param, v))
              WEATHER_PARAMS param Hp) as [e He].
  { exists IndexError. rewrite Hs. cbn [bind getitem].
    assert (nth_error series (List.length series) = None) as ->
      by (apply nth_error_None; lia).
    reflexivity. }
  exists e. unfold values_at. now rewrite He.
Qed.

(* ------------------------------------------------------------------ *)
(** * The further theorems at concrete inputs *)

(** A complete response of one hour, asked for Berlin. *)
Lemma attempt_success_shape_witness :
  MoreCases.berlin_one_hour <> []
  /\ Forall (fun o => o_city o = city Cases.berlin_location
                      /\ o_latitude o = latitude Cases.berlin_location
                      /\ o_longitude o = longitude Cases.berlin_location
                      /\ map fst (o_values o) = WEATHER_PARAMS)
            MoreCases.berlin_one_hour.
Proof.
  destruct (attempt_success_shape Cases.berlin_location
              (Response 200 (Some MoreCases.one_hour)) MoreCases.berlin_one_hour)
    as [Hne [Hall _]].
  - vm_compute. reflexivity.
  - split; [ exact Hne | exact Hall ].
Defined.

(** An endpoint that fails once: the second attempt is the one returned. *)
Lemma fetch_stops_at_first_success_witness :
  exists w' warnings,
    fetch_weather_for_city MoreCases.fails_once Cases.berlin_location 3 2 Cases.fresh
    = (Return MoreCases.berlin_one_hour, w')
    /\ invocations w' = (invocations Cases.fresh + 1 + 1)%nat
    /\ slept w' = slept Cases.fresh + Z.of_nat 1 * 2
    /\ WeatherFetch.log w' = WeatherFetch.log Cases.fresh ++ warnings
    /\ List.length warnings = 1%nat
    /\ Forall (fun r => fst r = WARNING) warnings.
Proof.
  apply (fetch_stops_at_first_success MoreCases.fails_once Cases.berlin_location
           3 2 Cases.fresh 1 MoreCases.berlin_one_hour).
  - lia.
  - lia.
  - intros n Hn. exists RequestException. destruct n; [ reflexivity | lia ].
  - vm_compute. reflexivity.
Defined.

(** An endpoint that never answers. *)
Lemma fetch_empty_only_when_exhausted_witness :
  invocations
    (snd (fetch_weather_for_city (Cases.always NoResponse) Cases.berlin_location
                                 3 2 Cases.fresh))
  = (invocations Cases.fresh + Z.to_nat 3)%nat.
Proof.
  apply (fetch_empty_only_when_exhausted (Cases.always NoResponse)
           Cases.berlin_location 3 2 Cases.fresh).
  vm_compute. reflexivity.
Defined.

(** A delay of minus one second and an endpoint that never answers. *)
Lemma fetch_negative_delay_raises_witness :
  fetch_weather_for_city (Cases.always NoResponse) Cases.berlin_location 3 (-1) Cases.fresh
  = (Raise (ValueError "sleep length must be non-negative"),
     {| invocations := 1; slept := 0;
        WeatherFetch.log := [(WARNING, AttemptFailed 1 "Berlin" RequestException)] |}).
Proof.
  apply (fetch_negative_delay_raises (Cases.always NoResponse) Cases.berlin_location
           3 (-1) Cases.fresh RequestException).
  - lia.
  - lia.
  - reflexivity.
Defined.

(** No retry at all. *)
Lemma fetch_without_retries_witness :
  fetch_weather_for_city (Cases.always (Response 200 (Some MoreCases.one_hour)))
                         Cases.berlin_location 0 2 Cases.fresh
  = (Return [],
     {| invocations := 0; slept := 0;
        WeatherFetch.log := [(ERROR, FinalFailure "Berlin")] |}).
Proof.
  apply (fetch_without_retries (Cases.always (Response 200 (Some MoreCases.one_hour)))
           Cases.berlin_location 0 2 Cases.fresh).
  lia.
Defined.

(** A complete response of one hour. *)
Lemma observations_aligned_witness :
  observations Cases.berlin_location MoreCases.one_hour
  = Return MoreCases.berlin_one_hour.
Proof.
  rewrite (observations_aligned Cases.berlin_location MoreCases.one_hour
             MoreCases.one_hour_hourly (JStr "2022-07-01T00:00") []).
  - reflexivity.
  - reflexivity.
  - reflexivity.
  - intros param [<- | [<- | [<- | [<- | []]]]];
      eexists; (split; [ reflexivity | simpl; lia ]).
Defined.

(** Two timestamps and no [weathercode] array: the default has one entry. *)
Lemma observations_short_series_raises_witness :
  exists e, observations Cases.berlin_location Cases.two_hours_without_weathercode
            = Raise e.
Proof.
  apply (observations_short_series_raises
           Cases.berlin_location Cases.two_hours_without_weathercode
           MoreCases.two_hours_hourly
           [JStr "2022-07-01T00:00"; JStr "2022-07-01T01:00"]
           [JNull] "weathercode").
  - reflexivity.
  - reflexivity.
  - simpl. tauto.
  - reflexivity.
  - simpl. lia.
Defined.

(** Berlin, read from a catalog of three rows. *)
Lemma fetch_cities_requests_geocoded_witness :
  exists lat lon,
    q_latitude (request_params Cases.berlin_location) = Some lat
    /\ q_longitude (request_params Cases.berlin_location) = Some lon.
Proof.
  apply (fetch_cities_requests_geocoded MoreCases.catalog Cases.berlin_location).
  simpl. left. reflexivity.
Defined.

(** Three catalog rows: Berlin is answered, Paris is not, Atlantis has no
    longitude.  One row is written and four requests are made. *)
Lemma collector_partial_coverage_witness :
  exists run w',
    Collector.collect_and_store_weather_data
      MoreCases.catalog (fun req _ => MoreCases.no_answer_for_paris req) Cases.fresh
    = (Return run, w')
    /\ Collector.written run
       = (let rows := flat_map (contribution MoreCases.no_answer_for_paris)
                               (fst (fetch_cities_from_db MoreCases.catalog)) in
          if empty rows then None else Some (Collector.output_file, rows))
    /\ invocations w'
       = (invocations Cases.fresh
          + list_sum (map (requests_made MoreCases.no_answer_for_paris)
                          (fst (fetch_cities_from_db MoreCases.catalog))))%nat.
Proof.
  apply (collector_partial_coverage MoreCases.catalog
           (fun req _ => MoreCases.no_answer_for_paris req)
           MoreCases.no_answer_for_paris Cases.fresh).
  intros req n. reflexivity.
Defined.

Example collector_partial_coverage_values :
  flat_map (contribution MoreCases.no_answer_for_paris)
           (fst (fetch_cities_from_db MoreCases.catalog))
  = MoreCases.berlin_one_hour
  /\ list_sum (map (requests_made MoreCases.no_answer_for_paris)
                   (fst (fetch_cities_from_db MoreCases.catalog))) = 4%nat.
Proof. split; vm_compute; reflexivity. Qed.



(** The end-to-end scenario, whose catalog covers its weather. *)
Lemma join_city_id_never_null_witness :
  exists c, In c (cities_df Scenario.inputs)
            /\ city_id Scenario.expected = Some (c_id c).
Proof.
  apply (join_city_id_never_null Scenario.inputs Scenario.expected).
  - intros w [<- | []]. exists Scenario.berlin.
    split; [ now left | repeat split; reflexivity ].
  - vm_compute. left. reflexivity.
Defined.

(** The end-to-end scenario: 08:15:00 lies in the hour of 08:00:00. *)
Lemma join_weather_of_the_hour_witness :
  exists w,
    In w (weather_df Scenario.inputs)
    /\ temperature_2m Scenario.expected = w_temperature_2m w
    /\ windspeed_10m Scenario.expected = w_windspeed_10m w
    /\ precipitation Scenario.expected = w_precipitation w
    /\ weathercode Scenario.expected = w_weathercode w
    /\ floor_h (w_timestamp w) mod NS_PER_HOUR = 0
    /\ floor_h (w_timestamp w) <= timestamp Scenario.expected
       < floor_h (w_timestamp w) + NS_PER_HOUR.
Proof.
  apply (join_weather_of_the_hour Scenario.inputs Scenario.expected).
  vm_compute. left. reflexivity.
Defined.
